(** * comfyapi: a ComfyUI client (submit a workflow, poll, download the image)

    A shallow embedding of [comfyapi.py] and the properties of its five
    functions [_post_prompt], [_wait_until_done], [_pick_last_image],
    [_download_image] and [generar].

    Conventions of the embedding.
    - A Python [str] is a [string] holding its UTF-8 bytes.
    - A decoded JSON document is a tree [json]; a Python [dict] keeps its
      insertion order, so an object is an association list.
    - Python exceptions are the constructors of [exn]; a pure computation
      returns [result A], an effectful one lives in the monad [M] over the
      state of the world (object store, file system, the scripted replies
      of the server, the clock, the random source, the log of calls).
    - The interpreter is CPython on a POSIX system ([pathlib.PosixPath],
      [PurePath.suffix] as up to Python 3.13); [int] is modelled on ASCII
      input and without the interpreter's optional limit on digit counts;
      [print] calls are left out. *)

From Stdlib Require Import ZArith QArith List String Ascii Bool Lia Lqa.
From Stdlib Require Import Permutation Sorted.
From Stdlib Require Import Floats.SpecFloat.
Import ListNotations.

Close Scope Q_scope.
Open Scope string_scope.
Open Scope list_scope.

(* ================================================================== *)
(** * Strings *)

Module Str.

(** [s.rstrip(chars)] for a set of characters given as a predicate. *)
Fixpoint rstrip_by (p : ascii -> bool) (s : string) : string :=
  match s with
  | EmptyString => EmptyString
  | String a t =>
      match rstrip_by p t with
      | EmptyString => if p a then EmptyString else String a EmptyString
      | t' => String a t'
      end
  end.

Fixpoint lstrip_by (p : ascii -> bool) (s : string) : string :=
  match s with
  | EmptyString => EmptyString
  | String a t => if p a then lstrip_by p t else s
  end.

(** [host.rstrip('/')] *)
Definition rstrip (c : ascii) (s : string) : string :=
  rstrip_by (Ascii.eqb c) s.

(** [needle in s] on two strings: [needle] occurs as a substring. *)
Fixpoint contains (needle s : string) : bool :=
  String.prefix needle s ||
  match s with
  | EmptyString => false
  | String _ t => contains needle t
  end.

Fixpoint forallb (p : ascii -> bool) (s : string) : bool :=
  match s with
  | EmptyString => true
  | String a t => p a && forallb p t
  end.

(** A byte [10xxxxxx] continues a UTF-8 sequence. *)
Definition is_continuation (c : ascii) : bool :=
  let n := nat_of_ascii c in (128 <=? n)%nat && (n <? 192)%nat.

(** [len(s)]: the number of code points, one per byte that starts a
    sequence. *)
Fixpoint len (s : string) : nat :=
  match s with
  | EmptyString => O
  | String a t => if is_continuation a then len t else S (len t)
  end.

(** [s[-1]]: the last code point of a non-empty string. *)
Fixpoint last_char (s : string) : string :=
  match s with
  | EmptyString => EmptyString
  | String a t =>
      if forallb is_continuation t then s else last_char t
  end.

End Str.

(* ================================================================== *)
(** * JSON documents and Python exceptions *)

(** What [json.loads] and [Response.json] return. *)
#[warnings="-register-all"]
Inductive json : Type :=
| JNull
| JBool (b : bool)
| JInt (z : Z)
| JFloat (f : spec_float)
| JStr (s : string)
| JArr (items : list json)
| JObj (items : list (string * json)).

(** The three [ValueError]s of [_pick_last_image], the one of [int], the
    one of [time.sleep] and the one of [json.dumps]. *)
Inductive value_error : Type :=
| NoOutputs (hist : json)          (* "No se encontraron outputs. ..." *)
| NoImagesInOutputs                (* "No se encontraron imágenes en los outputs" *)
| FinalNodeNoImages                (* "El nodo final no contiene imágenes" *)
| InvalidLiteralForInt (s : string)
| NegativeSleepLength
| CircularReference.

(** The two [TimeoutError]s of [_wait_until_done]. *)
Inductive timeout_error : Type :=
| NeverAppeared (prompt_id : string) (timeout : Z)
| NeverFinished (prompt_id : string) (timeout : Z).

(** [requests.exceptions]: a request that could not complete, a 4xx or
    5xx status turned into an exception by [raise_for_status], a body
    that is not JSON, a body stream that broke. *)
Inductive request_error : Type :=
| ConnectionFailure
| HTTPError (status : Z)
| BodyNotJSON
| StreamBroken.

Inductive os_error : Type :=
| FileNotFoundError
| FileExistsError
| NotADirectoryError
| IsADirectoryError.

Inductive exn : Type :=
| KeyError (key : json)
| TypeError
| AttributeError
| IndexError
| ValueError (what : value_error)
| JSONDecodeError
| UnicodeDecodeError
| TimeoutError (what : timeout_error)
| RequestException (what : request_error)
| OSError (what : os_error).

Inductive result (A : Type) : Type :=
| Ok (a : A)
| Error (e : exn).

Arguments Ok {A} a.
Arguments Error {A} e.

Definition bindR {A B : Type} (r : result A) (k : A -> result B) : result B :=
  match r with
  | Ok a => k a
  | Error e => Error e
  end.

Declare Scope result_scope.
Delimit Scope result_scope with result.
Notation "'let?' x := e 'in' k" :=
  (bindR e (fun x => k))
  (at level 10, x pattern, e at level 100, k at level 200)
  : result_scope.
Open Scope result_scope.

Fixpoint mapR {A B : Type} (f : A -> result B) (l : list A) : result (list B) :=
  match l with
  | [] => Ok []
  | a :: t => let? b := f a in let? bs := mapR f t in Ok (b :: bs)
  end.

(* ================================================================== *)
(** * Python operations on decoded JSON *)

Module Py.

(** A [dict] as an association list: the first binding of a key counts. *)
Fixpoint lookup {V : Type} (k : string) (d : list (string * V)) : option V :=
  match d with
  | [] => None
  | (k', v) :: t => if String.eqb k k' then Some v else lookup k t
  end.

Definition keys {V : Type} (d : list (string * V)) : list string :=
  map fst d.

Definition has_key {V : Type} (k : string) (d : list (string * V)) : bool :=
  match lookup k d with Some _ => true | None => false end.

(** [d[k] = v]: overwrite in place, or append a new binding. *)
Fixpoint set {V : Type} (k : string) (v : V) (d : list (string * V))
  : list (string * V) :=
  match d with
  | [] => [(k, v)]
  | (k', v') :: t =>
      if String.eqb k k' then (k, v) :: t else (k', v') :: set k v t
  end.

(** [bool(x)] *)
Definition truthy (x : json) : bool :=
  match x with
  | JNull => false
  | JBool b => b
  | JInt z => negb (z =? 0)%Z
  | JFloat (S754_zero _) => false
  | JFloat _ => true
  | JStr s => negb (String.eqb s "")
  | JArr l => match l with [] => false | _ => true end
  | JObj d => match d with [] => false | _ => true end
  end.

Definition is_str (k : string) (x : json) : bool :=
  match x with JStr s => String.eqb s k | _ => false end.

(** [k in x] for a string [k]. *)
Definition contains (k : string) (x : json) : result bool :=
  match x with
  | JObj d => Ok (has_key k d)
  | JArr l => Ok (existsb (is_str k) l)
  | JStr s => Ok (Str.contains k s)
  | _ => Error TypeError
  end.

(** [x[k]] for a string [k]. *)
Definition getitem (x : json) (k : string) : result json :=
  match x with
  | JObj d =>
      match lookup k d with
      | Some v => Ok v
      | None => Error (KeyError (JStr k))
      end
  | _ => Error TypeError
  end.

(** [x.get(k, default)] *)
Definition get (x : json) (k : string) (default : json) : result json :=
  match x with
  | JObj d =>
      match lookup k d with
      | Some v => Ok v
      | None => Ok default
      end
  | _ => Error AttributeError
  end.

(** [x.keys()] *)
Definition dict_keys (x : json) : result (list string) :=
  match x with
  | JObj d => Ok (keys d)
  | _ => Error AttributeError
  end.

(** [l[-1]] on a Python list. *)
Definition list_last {A : Type} (l : list A) : result A :=
  match rev l with
  | a :: _ => Ok a
  | [] => Error IndexError
  end.

(** [x[-1]] *)
Definition index_last (x : json) : result json :=
  match x with
  | JArr l => list_last l
  | JStr s =>
      match s with
      | EmptyString => Error IndexError
      | _ => Ok (JStr (Str.last_char s))
      end
  | JObj _ => Error (KeyError (JInt (-1)))
  | _ => Error TypeError
  end.

(** ** [int(s)] on a string *)

(** The white space [int] skips at both ends. *)
Definition is_space (c : ascii) : bool :=
  let n := nat_of_ascii c in
  ((9 <=? n)%nat && (n <=? 13)%nat) || (n =? 32)%nat.

Definition digit_value (c : ascii) : option Z :=
  let n := nat_of_ascii c in
  if (48 <=? n)%nat && (n <=? 57)%nat then Some (Z.of_nat (n - 48)) else None.

(** Digits, single underscores allowed between two digits.
    [after_digit] says that the previous character was a digit. *)
Fixpoint parse_digits (acc : Z) (after_digit : bool) (s : string) : option Z :=
  match s with
  | EmptyString => if after_digit then Some acc else None
  | String c t =>
      match digit_value c with
      | Some d => parse_digits (10 * acc + d)%Z true t
      | None =>
          if Ascii.eqb c "_" && after_digit
          then parse_digits acc false t
          else None
      end
  end.

Definition int_opt (s : string) : option Z :=
  let body := Str.rstrip_by is_space (Str.lstrip_by is_space s) in
  match body with
  | String "-" t => option_map Z.opp (parse_digits 0 false t)
  | String "+" t => parse_digits 0 false t
  | _ => parse_digits 0 false body
  end.

Definition int (s : string) : result Z :=
  match int_opt s with
  | Some z => Ok z
  | None => Error (ValueError (InvalidLiteralForInt s))
  end.

(** ** [sorted(keys, key=int)] *)

(** Insertion before the first element whose key is not smaller: with
    the elements inserted from the right of the input this is a stable
    sort, as Python's. *)
Fixpoint insert_by_key (x : Z * string) (l : list (Z * string))
  : list (Z * string) :=
  match l with
  | [] => [x]
  | y :: t =>
      if (fst x <=? fst y)%Z then x :: l else y :: insert_by_key x t
  end.

Definition sort_by_key (l : list (Z * string)) : list (Z * string) :=
  fold_right insert_by_key [] l.

(** The keys are computed first, left to right; the first string that
    [int] rejects raises. *)
Definition sorted_key_int (l : list string) : result (list string) :=
  let? decorated := mapR (fun k => let? z := int k in Ok (z, k)) l in
  Ok (map snd (sort_by_key decorated)).

End Py.

(* ================================================================== *)
(** * [_pick_last_image] (lines 66-80) *)

(** Line 74: [last_node = sorted(outputs.keys(), key=int)[-1]]. *)
Definition last_node (outputs : json) : result string :=
  let? ks := Py.dict_keys outputs in
  let? sorted := Py.sorted_key_int ks in
  Py.list_last sorted.

(** Lines 75-80: what is read from the selected node. *)
Definition last_image_of (node : json) : result (json * json) :=
  let? images := Py.getitem node "images" in
  if negb (Py.truthy images) then Error (ValueError FinalNodeNoImages)
  else
    let? last_image := Py.index_last images in
    let? filename := Py.getitem last_image "filename" in
    let? subfolder := Py.get last_image "subfolder" (JStr "") in
    Ok (filename, subfolder).

Definition _pick_last_image (hist : json) : result (json * json) :=
  let? present := Py.contains "outputs" hist in
  if negb present then Error (ValueError (NoOutputs hist))
  else
    let? outputs := Py.getitem hist "outputs" in
    if negb (Py.truthy outputs) then Error (ValueError NoImagesInOutputs)
    else
      let? last := last_node outputs in
      let? node := Py.getitem outputs last in
      last_image_of node.

(* ================================================================== *)
(** * [pathlib] on a POSIX system *)

Module Pathlib.

(** A [PosixPath]: the root is [""], ["/"] or ["//"]; [parts] are the
    components after the root. *)
Record path : Type := mkPath { root : string; parts : list string }.

(** [s.split('/')] *)
Fixpoint split (s : string) : list string :=
  match s with
  | EmptyString => [EmptyString]
  | String c t =>
      if Ascii.eqb c "/" then EmptyString :: split t
      else
        match split t with
        | h :: r => String c h :: r
        | [] => [String c EmptyString]
        end
  end.

Definition is_component (x : string) : bool :=
  negb (String.eqb x "") && negb (String.eqb x ".").

(** [_PosixFlavour.splitroot]: exactly two leading slashes are kept as
    a root of their own. *)
Definition splitroot (part : string) : string * string :=
  match part with
  | String "/" _ =>
      let stripped := Str.lstrip_by (Ascii.eqb "/") part in
      if (String.length part - String.length stripped =? 2)%nat
      then ("//", stripped) else ("/", stripped)
  | _ => ("", part)
  end.

(** [Path(s)] *)
Definition Path (s : string) : path :=
  let '(r, rel) := splitroot s in
  mkPath r (filter is_component (split rel)).

(** [p / s] *)
Definition joinpath (p : path) (s : string) : path :=
  let q := Path s in
  match root q with
  | EmptyString => mkPath (root p) (parts p ++ parts q)
  | _ => q
  end.

(** [p.name] *)
Definition name (p : path) : string := last (parts p) "".

(** [p.parent] *)
Definition parent (p : path) : path := mkPath (root p) (removelast (parts p)).

(** [name.rfind('.')] *)
Fixpoint rfind_dot (s : string) : option nat :=
  match s with
  | EmptyString => None
  | String c t =>
      match rfind_dot t with
      | Some i => Some (S i)
      | None => if Ascii.eqb c "." then Some O else None
      end
  end.

(** [PurePath.suffix]: [name[i:]] when [0 < i < len(name) - 1].  The
    dot is one byte, so byte positions decide as code points do. *)
Definition suffix (p : path) : string :=
  let n := name p in
  match rfind_dot n with
  | Some i =>
      if (0 <? i)%nat && (S i <? String.length n)%nat
      then substring i (String.length n - i) n
      else ""
  | None => ""
  end.

Definition eqb (p q : path) : bool :=
  String.eqb (root p) (root q) &&
  if list_eq_dec string_dec (parts p) (parts q) then true else false.

End Pathlib.

(* ================================================================== *)
(** * [uuid.uuid4().hex] *)

Module Uuid.

Definition hex_char (d : Z) : ascii :=
  match String.get (Z.to_nat d) "0123456789abcdef" with
  | Some c => c
  | None => "0"%char
  end.

(** ['%0kx' % n] for [n] below [16^k]. *)
Fixpoint hex_digits (k : nat) (n : Z) (acc : string) : string :=
  match k with
  | O => acc
  | S k' => hex_digits k' (n / 16)%Z (String (hex_char (n mod 16)%Z) acc)
  end.

(** [UUID(bytes=..., version=4)]: the 128 bits with the variant and the
    version forced. *)
Definition uuid4_int (random : Z) : Z :=
  let i := (random mod 2 ^ 128)%Z in
  let i := Z.land i (Z.lnot (Z.shiftl 0xc000 48)) in
  let i := Z.lor i (Z.shiftl 0x8000 48) in
  let i := Z.land i (Z.lnot (Z.shiftl 0xf000 64)) in
  Z.lor i (Z.shiftl 4 76).

Definition hex (random : Z) : string :=
  hex_digits 32 (uuid4_int random) "".

Definition is_hex_char (c : ascii) : bool :=
  let n := nat_of_ascii c in
  ((48 <=? n)%nat && (n <=? 57)%nat) || ((97 <=? n)%nat && (n <=? 102)%nat).

End Uuid.

(* ================================================================== *)
(** * The state of the world *)

(** ** Mutable Python objects

    The workflow is a tree of [dict]s and [list]s that [generar] mutates
    through a second name ([nodo_6]): its containers live in a store and
    are designated by references. *)
Inductive value : Type :=
| VNone
| VBool (b : bool)
| VInt (z : Z)
| VFloat (f : spec_float)
| VStr (s : string)
| VRef (l : nat).

Inductive object : Type :=
| OList (items : list value)
| ODict (items : list (string * value)).

Definition store : Type := list object.

Module Store.

(** [json.loads] builds its result bottom-up out of fresh objects:
    the members of a container first, left to right, then the
    container. *)
Definition alloc_list (alloc : json -> store -> value * store)
  : list json -> store -> list value * store :=
  fix go (l : list json) (s : store) : list value * store :=
    match l with
    | [] => ([], s)
    | x :: t =>
        let '(v, s1) := alloc x s in
        let '(vs, s2) := go t s1 in
        (v :: vs, s2)
    end.

Definition alloc_items (alloc : json -> store -> value * store)
  : list (string * json) -> store -> list (string * value) * store :=
  fix go (d : list (string * json)) (s : store)
    : list (string * value) * store :=
    match d with
    | [] => ([], s)
    | (k, x) :: t =>
        let '(v, s1) := alloc x s in
        let '(kvs, s2) := go t s1 in
        ((k, v) :: kvs, s2)
    end.

Fixpoint alloc (j : json) (s : store) : value * store :=
  match j with
  | JNull => (VNone, s)
  | JBool b => (VBool b, s)
  | JInt z => (VInt z, s)
  | JFloat f => (VFloat f, s)
  | JStr x => (VStr x, s)
  | JArr l =>
      let '(vs, s1) := alloc_list alloc l s in
      (VRef (List.length s1), s1 ++ [OList vs])
  | JObj d =>
      let '(kvs, s1) := alloc_items alloc d s in
      (VRef (List.length s1), s1 ++ [ODict kvs])
  end.

Fixpoint mapO {A B : Type} (f : A -> option B) (l : list A) : option (list B) :=
  match l with
  | [] => Some []
  | a :: t =>
      match f a, mapO f t with
      | Some b, Some bs => Some (b :: bs)
      | _, _ => None
      end
  end.

(** The document [json.dumps] writes for [v], read down to [fuel]
    levels of nesting; [None] below that. *)
Fixpoint dumps (fuel : nat) (s : store) (v : value) : option json :=
  match fuel with
  | O => None
  | S n =>
      match v with
      | VNone => Some JNull
      | VBool b => Some (JBool b)
      | VInt z => Some (JInt z)
      | VFloat f => Some (JFloat f)
      | VStr x => Some (JStr x)
      | VRef l =>
          match nth_error s l with
          | Some (OList items) => option_map JArr (mapO (dumps n s) items)
          | Some (ODict items) =>
              option_map JObj
                (mapO (fun kv => option_map (pair (fst kv)) (dumps n s (snd kv)))
                   items)
          | None => None
          end
      end
  end.

(** Replace the object at [l]. *)
Fixpoint update (l : nat) (o : object) (s : store) : store :=
  match s, l with
  | [], _ => []
  | _ :: t, O => o :: t
  | x :: t, S l' => x :: update l' o t
  end.

Definition is_vstr (k : string) (v : value) : bool :=
  match v with VStr x => String.eqb x k | _ => false end.

End Store.

(** ** Files *)

Inductive node : Type :=
| Dir
| File (content : string).

(** The entries below the working directory and the root, which always
    exist; the latest binding of a path counts. *)
Definition fs : Type := list (Pathlib.path * node).

Module Fs.

Fixpoint assoc (p : Pathlib.path) (f : fs) : option node :=
  match f with
  | [] => None
  | (q, n) :: t => if Pathlib.eqb p q then Some n else assoc p t
  end.

Definition lookup (f : fs) (p : Pathlib.path) : option node :=
  match Pathlib.parts p with
  | [] => Some Dir
  | _ => assoc p f
  end.

Definition is_dir (f : fs) (p : Pathlib.path) : bool :=
  match lookup f p with Some Dir => true | _ => false end.

(** [os.mkdir(p)] *)
Definition os_mkdir (p : Pathlib.path) (f : fs) : result unit * fs :=
  match lookup f p with
  | Some _ => (Error (OSError FileExistsError), f)
  | None =>
      match lookup f (Pathlib.parent p) with
      | None => (Error (OSError FileNotFoundError), f)
      | Some (File _) => (Error (OSError NotADirectoryError), f)
      | Some Dir => (Ok tt, (p, Dir) :: f)
      end
  end.

(** [p.mkdir(parents=True, exist_ok=True)], as [pathlib] writes it:
    try [os.mkdir]; when the parent is missing make the parent first;
    any other failure is forgiven when [p] is a directory.  [fuel]
    bounds the climb to the parents. *)
Fixpoint mkdir (fuel : nat) (p : Pathlib.path) (f : fs) : result unit * fs :=
  match os_mkdir p f with
  | (Ok tt, f1) => (Ok tt, f1)
  | (Error (OSError FileNotFoundError), f1) =>
      if Pathlib.eqb (Pathlib.parent p) p
      then (Error (OSError FileNotFoundError), f1)
      else
        match fuel with
        | O => (Error (OSError FileNotFoundError), f1)
        | S n =>
            match mkdir n (Pathlib.parent p) f1 with
            | (Error e, f2) => (Error e, f2)
            | (Ok tt, f2) =>
                match os_mkdir p f2 with
                | (Ok tt, f3) => (Ok tt, f3)
                | (Error (OSError FileNotFoundError), f3) =>
                    (Error (OSError FileNotFoundError), f3)
                | (Error e, f3) =>
                    if is_dir f3 p then (Ok tt, f3) else (Error e, f3)
                end
            end
        end
  | (Error e, f1) => if is_dir f1 p then (Ok tt, f1) else (Error e, f1)
  end.

(** [p.open("wb")]: create or truncate. *)
Definition open_wb (p : Pathlib.path) (f : fs) : result unit * fs :=
  match lookup f p with
  | Some Dir => (Error (OSError IsADirectoryError), f)
  | Some (File _) => (Ok tt, (p, File "") :: f)
  | None =>
      match lookup f (Pathlib.parent p) with
      | None => (Error (OSError FileNotFoundError), f)
      | Some (File _) => (Error (OSError NotADirectoryError), f)
      | Some Dir => (Ok tt, (p, File "") :: f)
      end
  end.

(** [f.write(chunk)] on the file opened at [p]. *)
Definition write (p : Pathlib.path) (chunk : string) (f : fs) : fs :=
  match lookup f p with
  | Some (File c) => (p, File (c ++ chunk)) :: f
  | _ => f
  end.

(** The bytes are well-formed UTF-8. *)
Definition cont (n : nat) : bool := (128 <=? n)%nat && (n <=? 191)%nat.

Definition second_of_3 (x y : nat) : bool :=
  if (x =? 224)%nat then (160 <=? y)%nat && (y <=? 191)%nat
  else if (x =? 237)%nat then (128 <=? y)%nat && (y <=? 159)%nat
  else cont y.

Definition second_of_4 (x y : nat) : bool :=
  if (x =? 240)%nat then (144 <=? y)%nat && (y <=? 191)%nat
  else if (x =? 244)%nat then (128 <=? y)%nat && (y <=? 143)%nat
  else cont y.

Fixpoint utf8_valid (s : string) : bool :=
  match s with
  | EmptyString => true
  | String a t =>
      let x := nat_of_ascii a in
      if (x <? 128)%nat then utf8_valid t
      else
        match t with
        | EmptyString => false
        | String b t2 =>
            let y := nat_of_ascii b in
            if (194 <=? x)%nat && (x <=? 223)%nat then cont y && utf8_valid t2
            else
              match t2 with
              | EmptyString => false
              | String c t3 =>
                  let z := nat_of_ascii c in
                  if (224 <=? x)%nat && (x <=? 239)%nat
                  then second_of_3 x y && cont z && utf8_valid t3
                  else
                    match t3 with
                    | EmptyString => false
                    | String d t4 =>
                        (240 <=? x)%nat && (x <=? 244)%nat &&
                        second_of_4 x y && cont z &&
                        cont (nat_of_ascii d) && utf8_valid t4
                    end
              end
        end
  end.

(** Text mode reads ["\r\n"] and ["\r"] as ["\n"]. *)
Fixpoint universal_newlines (s : string) : string :=
  match s with
  | EmptyString => EmptyString
  | String c t =>
      if Ascii.eqb c "013" then
        match t with
        | String c2 t2 =>
            if Ascii.eqb c2 "010"
            then String "010" (universal_newlines t2)
            else String "010" (universal_newlines t)
        | EmptyString => String "010" EmptyString
        end
      else String c (universal_newlines t)
  end.

(** [p.read_text(encoding="utf-8")] *)
Definition read_text (p : Pathlib.path) (f : fs) : result string :=
  match lookup f p with
  | Some (File c) =>
      if utf8_valid c then Ok (universal_newlines c)
      else Error UnicodeDecodeError
  | Some Dir => Error (OSError IsADirectoryError)
  | None =>
      match lookup f (Pathlib.parent p) with
      | Some (File _) => Error (OSError NotADirectoryError)
      | _ => Error (OSError FileNotFoundError)
      end
  end.

End Fs.

(** ** The server, the clock, the random source *)

(** A [requests.Response]: the status, what [.json()] decodes ([None]
    when the body is not JSON), what [.iter_content] yields and whether
    the stream reaches its end. *)
Record response : Type := mkResponse {
  status_code : Z;
  json_body : option json;
  chunks : list string;
  stream_complete : bool
}.

(** What a request meets: no answer (connection refused, timed out), or
    a response. *)
Inductive reply : Type :=
| Unreachable
| Answer (r : response).

(** The calls that leave the process, and the pauses. *)
Inductive call : Type :=
| POST (url : string) (body : json) (timeout : Z)
| GET (url : string) (stream : bool) (timeout : Z)
| SLEEP (seconds : Q).

Record world : Type := mkWorld {
  objects : store;
  files : fs;
  replies : list reply;        (* what the server answers, in order *)
  clock : list Q;              (* the successive values of time.time() *)
  entropy : list Z;            (* the successive draws of os.urandom(16) *)
  calls : list call            (* the calls made so far, oldest first *)
}.

Definition with_objects (s : store) (w : world) : world :=
  mkWorld s (files w) (replies w) (clock w) (entropy w) (calls w).
Definition with_files (f : fs) (w : world) : world :=
  mkWorld (objects w) f (replies w) (clock w) (entropy w) (calls w).
Definition with_replies (r : list reply) (w : world) : world :=
  mkWorld (objects w) (files w) r (clock w) (entropy w) (calls w).
Definition with_clock (c : list Q) (w : world) : world :=
  mkWorld (objects w) (files w) (replies w) c (entropy w) (calls w).
Definition with_entropy (e : list Z) (w : world) : world :=
  mkWorld (objects w) (files w) (replies w) (clock w) e (calls w).
Definition log (c : call) (w : world) : world :=
  mkWorld (objects w) (files w) (replies w) (clock w) (entropy w) (calls w ++ [c]).

(** ** The monad of effectful code

    A computation runs from a world to a value or an exception, and the
    world it leaves (an exception keeps the effects made before it).  It
    yields nothing ([None]) when the script of the environment ends
    before the code does, or when a value leaves the types the embedding
    covers. *)
Definition M (A : Type) : Type := world -> option (result A * world).

Definition ret {A : Type} (a : A) : M A := fun w => Some (Ok a, w).
Definition raise {A : Type} (e : exn) : M A := fun w => Some (Error e, w).
Definition stuck {A : Type} : M A := fun _ => None.

Definition bind {A B : Type} (m : M A) (k : A -> M B) : M B :=
  fun w =>
    match m w with
    | Some (Ok a, w') => k a w'
    | Some (Error e, w') => Some (Error e, w')
    | None => None
    end.

Definition lift {A : Type} (r : result A) : M A :=
  match r with
  | Ok a => ret a
  | Error e => raise e
  end.

Declare Scope M_scope.
Delimit Scope M_scope with M.
Notation "x <- m ;; k" := (bind m (fun x => k))
  (at level 61, m at next level, right associativity) : M_scope.
Notation "m ;; k" := (bind m (fun _ => k))
  (at level 61, right associativity) : M_scope.
Open Scope M_scope.

(** ** Primitive effects *)

(** [requests.post(url, json=body, timeout=t)] *)
Definition requests_post (url : string) (body : json) (t : Z) : M response :=
  fun w =>
    match replies w with
    | [] => None
    | Unreachable :: rest =>
        Some (Error (RequestException ConnectionFailure),
              with_replies rest (log (POST url body t) w))
    | Answer r :: rest =>
        Some (Ok r, with_replies rest (log (POST url body t) w))
    end.

(** [requests.get(url, stream=s, timeout=t)] *)
Definition requests_get (url : string) (s : bool) (t : Z) : M response :=
  fun w =>
    match replies w with
    | [] => None
    | Unreachable :: rest =>
        Some (Error (RequestException ConnectionFailure),
              with_replies rest (log (GET url s t) w))
    | Answer r :: rest =>
        Some (Ok r, with_replies rest (log (GET url s t) w))
    end.

(** [r.raise_for_status()]: the 4xx and 5xx statuses raise. *)
Definition raise_for_status (r : response) : M unit :=
  if (400 <=? status_code r)%Z && (status_code r <? 600)%Z
  then raise (RequestException (HTTPError (status_code r)))
  else ret tt.

(** [r.json()] *)
Definition response_json (r : response) : M json :=
  match json_body r with
  | Some j => ret j
  | None => raise (RequestException BodyNotJSON)
  end.

(** [x > y] on two times is [Qlt_bool y x]. *)
Definition Qlt_bool (x y : Q) : bool := negb (Qle_bool y x).

(** [time.time()] *)
Definition time_time : M Q :=
  fun w =>
    match clock w with
    | [] => None
    | t :: rest => Some (Ok t, with_clock rest w)
    end.

(** [time.sleep(d)] *)
Definition time_sleep (d : Q) : M unit :=
  fun w =>
    if Qle_bool 0 d then Some (Ok tt, log (SLEEP d) w)
    else Some (Error (ValueError NegativeSleepLength), w).

(** [uuid.uuid4().hex] *)
Definition uuid4_hex : M string :=
  fun w =>
    match entropy w with
    | [] => None
    | r :: rest => Some (Ok (Uuid.hex r), with_entropy rest w)
    end.

(** A file-system operation that returns a status and the new state. *)
Definition on_files {A : Type} (op : fs -> result A * fs) : M A :=
  fun w => let '(r, f) := op (files w) in Some (r, with_files f w).

Definition read_text (p : Pathlib.path) : M string :=
  on_files (fun f => (Fs.read_text p f, f)).

Definition mkdir (p : Pathlib.path) : M unit :=
  on_files (Fs.mkdir (List.length (Pathlib.parts p)) p).

Definition open_wb (p : Pathlib.path) : M unit :=
  on_files (Fs.open_wb p).

Definition write (p : Pathlib.path) (chunk : string) : M unit :=
  on_files (fun f => (Ok tt, Fs.write p chunk f)).

(** [for chunk in r.iter_content(...): f.write(chunk)] *)
Fixpoint write_chunks (p : Pathlib.path) (cs : list string) (complete : bool)
  : M unit :=
  match cs with
  | [] => if complete then ret tt else raise (RequestException StreamBroken)
  | c :: rest => write p c ;; write_chunks p rest complete
  end.

(** ** Operations on stored objects *)

(** The object a value refers to. *)
Definition deref (v : value) : M (option object) :=
  fun w =>
    match v with
    | VRef l =>
        match nth_error (objects w) l with
        | Some o => Some (Ok (Some o), w)
        | None => None
        end
    | _ => Some (Ok None, w)
    end.

(** Materialise a decoded document as fresh objects. *)
Definition new_object (j : json) : M value :=
  fun w => let '(v, s) := Store.alloc j (objects w) in Some (Ok v, with_objects s w).

(** [{k: v, ...}] *)
Definition new_dict (items : list (string * value)) : M value :=
  fun w =>
    Some (Ok (VRef (List.length (objects w))),
          with_objects (objects w ++ [ODict items]) w).

(** [x[k]] for a string [k] *)
Definition obj_getitem (x : value) (k : string) : M value :=
  o <- deref x ;;
  match o with
  | Some (ODict d) =>
      match Py.lookup k d with
      | Some v => ret v
      | None => raise (KeyError (JStr k))
      end
  | _ => raise TypeError
  end.

(** [x[k] = v] for a string [k] *)
Definition obj_setitem (x : value) (k : string) (v : value) : M unit :=
  o <- deref x ;;
  match o, x with
  | Some (ODict d), VRef l =>
      fun w => Some (Ok tt, with_objects (Store.update l (ODict (Py.set k v d)) (objects w)) w)
  | _, _ => raise TypeError
  end.

(** [k in x] for a string [k] *)
Definition obj_contains (k : string) (x : value) : M bool :=
  o <- deref x ;;
  match o, x with
  | Some (ODict d), _ => ret (Py.has_key k d)
  | Some (OList l), _ => ret (existsb (Store.is_vstr k) l)
  | None, VStr s => ret (Str.contains k s)
  | None, _ => raise TypeError
  end.

(** [len(x)] *)
Definition obj_len (x : value) : M nat :=
  o <- deref x ;;
  match o, x with
  | Some (ODict d), _ => ret (List.length d)
  | Some (OList l), _ => ret (List.length l)
  | None, VStr s => ret (Str.len s)
  | None, _ => raise TypeError
  end.

(** [json.dumps(x)]: an object that contains itself is refused. *)
Definition json_dumps (x : value) : M json :=
  fun w =>
    match Store.dumps (S (List.length (objects w))) (objects w) x with
    | Some j => Some (Ok j, w)
    | None => Some (Error (ValueError CircularReference), w)
    end.

(** A value that the callee reads as a [str]; the formatting of other
    values into a URL is outside the embedding. *)
Definition as_str (j : json) : M string :=
  match j with
  | JStr s => ret s
  | _ => stuck
  end.

(* ================================================================== *)
(** * The functions of [comfyapi.py] *)

(** Lines 27-39.  The payload is the workflow itself when it is a
    single-key mapping with the key "prompt", a fresh [dict] around it
    otherwise; [json.dumps] runs on it (line 34) before the request. *)
Definition _post_prompt (workflow : value) (host : string) : M json :=
  let url := (Str.rstrip "/" host ++ "/prompt")%string in
  has_prompt <- obj_contains "prompt" workflow ;;
  wrapped <- (if has_prompt : bool
              then n <- obj_len workflow ;; ret (n =? 1)%nat
              else ret false) ;;
  payload <- (if wrapped : bool
              then ret workflow
              else new_dict [("prompt", workflow)]) ;;
  body <- json_dumps payload ;;
  r <- requests_post url body 30 ;;
  raise_for_status r ;;
  data <- response_json r ;;
  lift (Py.getitem data "prompt_id").

(** The [while True] loop of [_wait_until_done]; every turn takes one
    reply of the server, so [fuel] turns are enough when [fuel] exceeds
    the number of replies left. *)
Fixpoint wait_loop (fuel : nat) (prompt_id url : string) (poll : Q)
  (timeout : Z) (t0 : Q) : M json :=
  match fuel with
  | O => stuck
  | S fuel' =>
      r <- requests_get url false 30 ;;
      raise_for_status r ;;
      hist <- response_json r ;;
      absent <- (if negb (Py.truthy hist) then ret true
                 else present <- lift (Py.contains prompt_id hist) ;;
                      ret (negb present)) ;;
      if absent : bool then
        now <- time_time ;;
        if Qlt_bool (inject_Z timeout) (now - t0)
        then raise (TimeoutError (NeverAppeared prompt_id timeout))
        else time_sleep poll ;;
             wait_loop fuel' prompt_id url poll timeout t0
      else
        data <- lift (Py.getitem hist prompt_id) ;;
        status <- lift (Py.get data "status" (JObj [])) ;;
        completed <- lift (Py.get status "completed" (JBool false)) ;;
        if negb (Py.truthy completed) then
          now <- time_time ;;
          if Qlt_bool (inject_Z timeout) (now - t0)
          then raise (TimeoutError (NeverFinished prompt_id timeout))
          else time_sleep poll ;;
               wait_loop fuel' prompt_id url poll timeout t0
        else ret data
  end.

(** Lines 42-63. *)
Definition _wait_until_done (prompt_id host : string) (poll : Q) (timeout : Z)
  : M json :=
  let url := (Str.rstrip "/" host ++ "/history/" ++ prompt_id)%string in
  t0 <- time_time ;;
  fun w => wait_loop (S (List.length (replies w))) prompt_id url poll timeout t0 w.

(** Lines 83-99: the request and its status check come first, then the
    directory, the name and the file. *)
Definition _download_image (filename subfolder host : string)
  (save_dir : Pathlib.path) : M Pathlib.path :=
  let url := (Str.rstrip "/" host ++ "/view?" ++
              "filename=" ++ filename ++ "&type=output&subfolder=" ++ subfolder)%string in
  r <- requests_get url true 120 ;;
  raise_for_status r ;;
  mkdir save_dir ;;
  let ext := match Pathlib.suffix (Pathlib.Path filename) with
             | EmptyString => ".png"
             | s => s
             end in
  token <- uuid4_hex ;;
  let local_path := Pathlib.joinpath save_dir (token ++ ext)%string in
  open_wb local_path ;;
  write_chunks local_path (chunks r) (stream_complete r) ;;
  ret local_path.

Section Generar.

(** [json.loads] of the standard library: the decoded document, or
    [None] where it raises [JSONDecodeError]. *)
Variable json_loads : string -> option json.

(** Steps 1 and 2 of [generar] (lines 114-119): load the workflow and
    write the prompt into node 6. *)
Definition load_workflow (workflow_path prompt_text : string) : M value :=
  raw <- read_text (Pathlib.Path workflow_path) ;;
  workflow <- match json_loads raw with
              | Some j => new_object j
              | None => raise JSONDecodeError
              end ;;
  nodo_6 <- obj_getitem workflow "6" ;;
  inputs <- obj_getitem nodo_6 "inputs" ;;
  obj_setitem inputs "text" (VStr prompt_text) ;;
  ret workflow.

(** Lines 102-133.  The prompt id, the filename and the subfolder go on
    as strings, which is what the server sends. *)
Definition generar (workflow_path prompt_text comfy_host out_dir : string)
  (poll_interval : Q) (timeout : Z) : M Pathlib.path :=
  workflow <- load_workflow workflow_path prompt_text ;;
  prompt_wrapper <- new_dict [("prompt", workflow)] ;;
  prompt_id <- _post_prompt prompt_wrapper comfy_host ;;
  prompt_id <- as_str prompt_id ;;
  hist <- _wait_until_done prompt_id comfy_host poll_interval timeout ;;
  picked <- lift (_pick_last_image hist) ;;
  filename <- as_str (fst picked) ;;
  subfolder <- as_str (snd picked) ;;
  local_path <- _download_image filename subfolder comfy_host
                  (Pathlib.Path out_dir) ;;
  ret local_path.

End Generar.

(* ================================================================== *)
(** * The vocabulary of the specification *)






(** The [status.completed] flag nested in a per-job status object. *)
Definition completed_flag (data : json) : option json :=
  match data with
  | JObj d =>
      match Py.lookup "status" d with
      | Some (JObj st) => Py.lookup "completed" st
      | _ => None
      end
  | _ => None
  end.

(** The history record holds the job, and its flag is true. *)
Definition job_done (prompt_id : string) (hist data : json) : Prop :=
  exists items flag,
    hist = JObj items /\ Py.lookup prompt_id items = Some data /\
    completed_flag data = Some flag /\ Py.truthy flag = true.

(** The per-job status object carries no true flag: it has no status,
    or a status without the flag, or a flag that is not true. *)
Definition flag_not_true (data : json) : Prop :=
  exists d,
    data = JObj d /\
    (Py.lookup "status" d = None \/
     exists st, Py.lookup "status" d = Some (JObj st) /\
       (Py.lookup "completed" st = None \/
        exists flag, Py.lookup "completed" st = Some flag /\
                     Py.truthy flag = false)).

(** The history record does not hold the job, or the job's flag is not
    true. *)
Definition job_pending (prompt_id : string) (hist : json) : Prop :=
  exists items,
    hist = JObj items /\
    (Py.lookup prompt_id items = None \/
     exists data, Py.lookup prompt_id items = Some data /\ flag_not_true data).

(** A response whose status [raise_for_status] lets through and whose
    body decodes to [hist]. *)
Definition answers (r : response) (hist : json) : Prop :=
  ((400 <=? status_code r)%Z && (status_code r <? 600)%Z = false) /\
  json_body r = Some hist.

(** [workflow["6"]["inputs"]["text"]] *)
Definition text_of_node_6 (workflow : value) : M value :=
  nodo_6 <- obj_getitem workflow "6" ;;
  inputs <- obj_getitem nodo_6 "inputs" ;;
  obj_getitem inputs "text".

(** The nesting depth of a document. *)
Fixpoint depth (j : json) : nat :=
  match j with
  | JArr l => S (fold_right Nat.max O (map depth l))
  | JObj d => S (fold_right Nat.max O (map (fun kv => depth (snd kv)) d))
  | _ => 1
  end.

(** The extension [_download_image] gives the local file. *)
Definition extension_of (filename : string) : string :=
  match Pathlib.suffix (Pathlib.Path filename) with
  | EmptyString => ".png"
  | s => s
  end.

Definition no_slash (s : string) : bool :=
  Str.forallb (fun c => negb (Ascii.eqb c "/")) s.

Definition no_dot (s : string) : bool :=
  Str.forallb (fun c => negb (Ascii.eqb c ".")) s.


(** What one reading of the history says about the job: the tests of
    lines 51 and 58 of [_wait_until_done], without the clock. *)
Inductive verdict : Type :=
| Absent
| Unfinished
| Done (data : json).

Definition examine (prompt_id : string) (hist : json) : result verdict :=
  let? absent :=
    (if negb (Py.truthy hist) then Ok true
     else let? present := Py.contains prompt_id hist in Ok (negb present)) in
  if absent : bool then Ok Absent
  else
    let? data := Py.getitem hist prompt_id in
    let? status := Py.get data "status" (JObj []) in
    let? completed := Py.get status "completed" (JBool false) in
    if negb (Py.truthy completed) then Ok Unfinished else Ok (Done data).

Definition timeout_error_of (v : verdict) (prompt_id : string) (timeout : Z)
  : timeout_error :=
  match v with
  | Absent => NeverAppeared prompt_id timeout
  | _ => NeverFinished prompt_id timeout
  end.

Definition is_done (v : verdict) : bool :=
  match v with Done _ => true | _ => false end.

(** The time elapsed since [t0] does not exceed, or exceeds, the timeout. *)
Definition in_time (timeout : Z) (t0 t : Q) : Prop :=
  (t - t0 <= inject_Z timeout)%Q.


(** A response that shows the job pending, or done with [data]. *)
Definition pending_answer (prompt_id : string) (r : response) : Prop :=
  exists hist, answers r hist /\ job_pending prompt_id hist.

Definition done_answer (prompt_id : string) (r : response) (data : json) : Prop :=
  exists hist, answers r hist /\ job_done prompt_id hist data.

Definition history_url (host prompt_id : string) : string :=
  (Str.rstrip "/" host ++ "/history/" ++ prompt_id)%string.

(** The calls of [n] polls that found the job pending. *)
Fixpoint retries (url : string) (poll : Q) (n : nat) : list call :=
  match n with
  | O => []
  | S k => GET url false 30 :: SLEEP poll :: retries url poll k
  end.

(** Induction on documents, with the members of a container at hand. *)
Fixpoint json_induction (P : json -> Prop)
  (HNull : P JNull) (HBool : forall b, P (JBool b)) (HInt : forall z, P (JInt z))
  (HFloat : forall f, P (JFloat f)) (HStr : forall s, P (JStr s))
  (HArr : forall l, Forall P l -> P (JArr l))
  (HObj : forall d, Forall (fun kv => P (snd kv)) d -> P (JObj d))
  (j : json) {struct j} : P j :=
  let rec := json_induction P HNull HBool HInt HFloat HStr HArr HObj in
  match j with
  | JNull => HNull
  | JBool b => HBool b
  | JInt z => HInt z
  | JFloat f => HFloat f
  | JStr s => HStr s
  | JArr l =>
      HArr l ((fix go (l : list json) : Forall P l :=
                 match l with
                 | [] => Forall_nil P
                 | x :: t => Forall_cons x (rec x) (go t)
                 end) l)
  | JObj d =>
      HObj d ((fix go (d : list (string * json))
                 : Forall (fun kv => P (snd kv)) d :=
                 match d with
                 | [] => Forall_nil _
                 | kv :: t => Forall_cons kv (rec (snd kv)) (go t)
                 end) d)
  end.

(** The member [k] of the [dict] that [v] refers to. *)
Definition field (s : store) (v : value) (k : string) : option value :=
  match v with
  | VRef l =>
      match nth_error s l with
      | Some (ODict d) => Py.lookup k d
      | _ => None
      end
  | _ => None
  end.


(** What [alloc] leaves: the old store, extended, where the value reads
    back as the document. *)
Definition alloc_ok (j : json) : Prop :=
  forall (s : store),
    (exists t, snd (Store.alloc j s) = s ++ t) /\
    Store.dumps (depth j) (snd (Store.alloc j s)) (fst (Store.alloc j s))
    = Some j.

(** The prompt is in the workflow that [load_workflow] returns. *)
Definition prompt_injected (json_loads : string -> option json)
  (workflow_path prompt_text : string) (w : world) : Prop :=
  exists workflow w',
    load_workflow json_loads workflow_path prompt_text w
    = Some (Ok workflow, w') /\
    text_of_node_6 workflow w' = Some (Ok (VStr prompt_text), w').



(** [q] is [p] or a directory above it. *)
Definition above (q p : Pathlib.path) : Prop :=
  exists k, q = Nat.iter k Pathlib.parent p.

(** No regular file stands at [p] or above it. *)
Definition way_clear (f : fs) (p : Pathlib.path) : Prop :=
  forall q c, above q p -> Fs.lookup f q <> Some (File c).

(* ================================================================== *)
(** * Sample data *)

Definition node_with (images : list json) : json := JObj [("images", JArr images)].
Definition image (filename : string) : json := JObj [("filename", JStr filename)].

(** Outputs with the keys "2", "10", "9", each node with one image. *)
Definition outputs_2_10_9 : list (string * json) :=
  [("2", node_with [image "two.png"]);
   ("10", node_with [image "ten.png"]);
   ("9", node_with [image "nine.png"])].

(** A reply that carries an image, and a world where only it remains. *)
Definition image_reply : reply :=
  Answer (mkResponse 200 None ["PNG"; "data"] true).




(** Histories for the job "abc": not there yet, there but running, done. *)
Definition status_of (completed : bool) : json :=
  JObj [("status", JObj [("completed", JBool completed)]);
        ("outputs", JObj outputs_2_10_9)].

Definition history_reply (hist : json) : response :=
  mkResponse 200 (Some hist) [] true.

Definition reply_empty : response := history_reply (JObj []).
Definition reply_running : response :=
  history_reply (JObj [("abc", status_of false)]).
Definition reply_done : response :=
  history_reply (JObj [("abc", status_of true)]).

(** The job shows up at the third poll, one and three seconds in. *)
Definition world_done_at_third_poll : world :=
  mkWorld [] []
    [Answer reply_empty; Answer reply_running; Answer reply_done]
    [10; 11; 13; 15]%Q [] [].


(** Workflow files, and what [json.loads] makes of them. *)
Definition quote : string := String "034" EmptyString.

(** A workflow whose node 6 takes a text. *)
Definition text_workflow : string :=
  ("{" ++ quote ++ "6" ++ quote ++ ": {" ++ quote ++ "inputs" ++ quote ++ ": {"
   ++ quote ++ "text" ++ quote ++ ": " ++ quote ++ "old" ++ quote ++ ", "
   ++ quote ++ "seed" ++ quote ++ ": 5}}}")%string.

Definition tree_workflow : json :=
  JObj [("6", JObj [("inputs", JObj [("text", JStr "old"); ("seed", JInt 5)])])].

(** A workflow whose node 6 has no inputs. *)
Definition text_bare_node : string :=
  ("{" ++ quote ++ "6" ++ quote ++ ": {}}")%string.

Definition tree_bare_node : json := JObj [("6", JObj [])].

(** A workflow without node 6. *)
Definition text_no_node : string :=
  ("{" ++ quote ++ "7" ++ quote ++ ": {}}")%string.

Definition tree_no_node : json := JObj [("7", JObj [])].


Definition sample_loads (raw : string) : option json :=
  if String.eqb raw text_workflow then Some tree_workflow
  else if String.eqb raw text_bare_node then Some tree_bare_node
  else if String.eqb raw text_no_node then Some tree_no_node
  else None.

(** A world with the workflow file, and a server that would answer. *)
Definition world_with_file (content : string) : world :=
  mkWorld [] [(Pathlib.Path "workflow.json", File content)]
    [Answer (mkResponse 200 (Some (JObj [("prompt_id", JStr "abc")])) [] true)]
    [] [] [].


(** A run of [generar] from the workflow file to the saved image: the
    server takes the job, shows it absent, then running, then done, and
    serves the image. *)
Definition world_for_generar : world :=
  mkWorld [] [(Pathlib.Path "workflow.json", File text_workflow)]
    [Answer (mkResponse 200 (Some (JObj [("prompt_id", JStr "abc")])) [] true);
     Answer reply_empty; Answer reply_running; Answer reply_done;
     image_reply]
    [10; 11; 13]%Q [2024%Z] [].

(* ================================================================== *)
(** * Vocabulary and samples of the further properties *)

Definition is_object (j : json) : bool :=
  match j with JObj _ => true | _ => false end.


Definition outputs_without_images : list (string * json) :=
  [("3", node_with [image "three.png"]); ("12", JObj [("text", JStr "done")])].

Definition outputs_without_filename : list (string * json) :=
  [("3", node_with [image "three.png"; JObj [("subfolder", JStr "tmp")]])].

Definition outputs_with_list_node : list (string * json) :=
  [("3", JArr [image "three.png"])].



(** The exception a reply raises before its body is looked at: no
    connection, a 4xx or 5xx status, a body that is not JSON. *)
Definition failure_of (rp : reply) : option request_error :=
  match rp with
  | Unreachable => Some ConnectionFailure
  | Answer r =>
      if (400 <=? status_code r)%Z && (status_code r <? 600)%Z
      then Some (HTTPError (status_code r))
      else match json_body r with
           | None => Some BodyNotJSON
           | Some _ => None
           end
  end.

(** The world a poller leaves after [n] polls that found the job pending
    and one more poll. *)
Definition after_polls (w : world) (url : string) (poll : Q) (n : nat)
  (rest : list reply) (later : list Q) : world :=
  mkWorld (objects w) (files w) rest later (entropy w)
    (calls w ++ retries url poll n ++ [GET url false 30]).

(** Replies for the poller: a server error, a body that is not JSON, a
    body that is [null], a job record that is a string, a status that
    is a string. *)
Definition reply_server_error : response := mkResponse 503 None [] true.
Definition reply_not_json : response := mkResponse 200 None [] true.
Definition reply_record_string : response :=
  history_reply (JObj [("abc", JStr "queued")]).
Definition reply_status_string : response :=
  history_reply (JObj [("abc", JObj [("status", JStr "running")])]).

Definition world_polls (rs : list reply) (ts : list Q) : world :=
  mkWorld [] [] rs ts [] [].

(** What [world_done_at_third_poll] has become when the poller returns. *)
Definition world_after_third_poll : world :=
  mkWorld [] [] [] [15%Q] []
    [GET "http://localhost:8188/history/abc" false 30; SLEEP 2;
     GET "http://localhost:8188/history/abc" false 30; SLEEP 2;
     GET "http://localhost:8188/history/abc" false 30].


(** The URL [_download_image] asks: the filename and the subfolder go
    into the query as they are. *)
Definition view_url (host filename subfolder : string) : string :=
  (Str.rstrip "/" host ++ "/view?" ++
   "filename=" ++ filename ++ "&type=output&subfolder=" ++ subfolder)%string.



Definition world_file_in_the_way : world :=
  mkWorld [] [(Pathlib.Path "outputs", File "notes")] [image_reply] []
    [2024%Z] [].


(** From [w] to [w'] nothing but the stored objects has changed. *)
Definition only_objects_changed (w w' : world) : Prop :=
  files w' = files w /\ calls w' = calls w /\ replies w' = replies w /\
  clock w' = clock w /\ entropy w' = entropy w.

(** [s'] has the cells of [s] from [lo] up to [hi]. *)
Definition agree (lo hi : nat) (s s' : store) : Prop :=
  forall i, lo <= i < hi -> nth_error s' i = nth_error s i.

(** The value made for [j] reads back as [j] in every store that has
    the cells made for it. *)
Definition alloc_local (j : json) : Prop :=
  forall (s0 s' : store),
    agree (List.length s0) (List.length (snd (Store.alloc j s0)))
      (snd (Store.alloc j s0)) s' ->
    Store.dumps (depth j) s' (fst (Store.alloc j s0)) = Some j.

(** A reference into the cells from [lo] up to [hi]; the values held by
    an object; a store where, from [lo] on, an object only refers to
    objects made before it and not before [lo]. *)
Definition ref_below (lo hi : nat) (v : value) : Prop :=
  match v with
  | VRef l => lo <= l < hi
  | _ => True
  end.

Definition members (o : object) : list value :=
  match o with
  | OList vs => vs
  | ODict kvs => map snd kvs
  end.

Definition downward (lo : nat) (s : store) : Prop :=
  forall l o,
    nth_error s l = Some o -> lo <= l -> Forall (ref_below lo l) (members o).

Definition alloc_downward (j : json) : Prop :=
  forall (s0 : store) (lo : nat),
    lo <= List.length s0 ->
    downward lo s0 ->
    downward lo (snd (Store.alloc j s0)) /\
    ref_below (List.length s0) (List.length (snd (Store.alloc j s0)))
      (fst (Store.alloc j s0)).

(** The workflow document with the prompt written into node 6. *)
Definition with_prompt (prompt_text : string)
  (d node inputs : list (string * json)) : json :=
  JObj (Py.set "6"
          (JObj (Py.set "inputs"
                   (JObj (Py.set "text" (JStr prompt_text) inputs)) node)) d).

(** How a member of a [dict] is read at [fuel]. *)
Definition dump_member (fuel : nat) (s : store) (kv : string * value)
  : option (string * json) :=
  option_map (pair (fst kv)) (Store.dumps fuel s (snd kv)).




(** Workflow files of other shapes, and what [json.loads] makes of
    them: a list; a node "6" that is a list; a node "6" without
    "inputs"; "inputs" that is [null]. *)
Definition text_list : string := "[]".

Definition text_node_list : string :=
  ("{" ++ quote ++ "5" ++ quote ++ ": {}, "
   ++ quote ++ "6" ++ quote ++ ": [1]}")%string.

Definition text_node_plain : string :=
  ("{" ++ quote ++ "6" ++ quote ++ ": {" ++ quote ++ "class_type" ++ quote
   ++ ": " ++ quote ++ "CLIPTextEncode" ++ quote ++ "}}")%string.

Definition text_inputs_null : string :=
  ("{" ++ quote ++ "6" ++ quote ++ ": {" ++ quote ++ "inputs" ++ quote
   ++ ": null}}")%string.

Definition sample_shapes (raw : string) : option json :=
  if String.eqb raw text_list then Some (JArr [])
  else if String.eqb raw text_node_list
  then Some (JObj [("5", JObj []); ("6", JArr [JInt 1])])
  else if String.eqb raw text_node_plain
  then Some (JObj [("6", JObj [("class_type", JStr "CLIPTextEncode")])])
  else if String.eqb raw text_inputs_null
  then Some (JObj [("6", JObj [("inputs", JNull)])])
  else None.

(* ================================================================== *)
(** * Facts about the Python operations *)

Lemma bindR_ok {A B : Type} (r : result A) (k : A -> result B) (a : A) :
  r = Ok a -> bindR r k = k a.
Proof. intros ->. reflexivity. Qed.

Lemma lookup_In {V : Type} (k : string) (d : list (string * V)) (v : V) :
  Py.lookup k d = Some v -> In (k, v) d.
Proof.
  induction d as [|[k' v'] d IH]; simpl; [discriminate|].
  destruct (String.eqb_spec k k') as [->|Hne].
  - intros [= ->]. now left.
  - intros H. right. now apply IH.
Qed.


Lemma lookup_set_same {V : Type} (k : string) (v : V) (d : list (string * V)) :
  Py.lookup k (Py.set k v d) = Some v.
Proof.
  induction d as [|[k' v'] d IH]; simpl.
  - now rewrite String.eqb_refl.
  - destruct (String.eqb_spec k k') as [->|Hne]; simpl.
    + now rewrite String.eqb_refl.
    + destruct (String.eqb_spec k k'); [contradiction|]. exact IH.
Qed.

Lemma lookup_set_other {V : Type} (k k' : string) (v : V) (d : list (string * V)) :
  k' <> k -> Py.lookup k' (Py.set k v d) = Py.lookup k' d.
Proof.
  intros Hne. induction d as [|[k0 v0] d IH]; simpl.
  - destruct (String.eqb_spec k' k); [contradiction|reflexivity].
  - destruct (String.eqb_spec k k0) as [->|Hk]; simpl.
    + destruct (String.eqb_spec k' k0); [contradiction|reflexivity].
    + destruct (String.eqb k' k0); [reflexivity|exact IH].
Qed.

(** ** [int] on decimal-integer strings *)







(** ** [sorted(..., key=int)[-1]] *)








Lemma last_In {A : Type} (l : list A) (d : A) : l <> [] -> In (last l d) l.
Proof.
  intros H. destruct (exists_last H) as (l' & a & ->).
  rewrite last_last. apply in_or_app. right. now left.
Qed.




Lemma last_node_nonempty (d : list (string * json)) (k : string) :
  last_node (JObj d) = Ok k -> d <> [].
Proof. intros H ->. discriminate H. Qed.

(** ** [_pick_last_image], step by step *)

Lemma pick_outputs (h d : list (string * json)) (k : string) (node : json) :
  Py.lookup "outputs" h = Some (JObj d) ->
  last_node (JObj d) = Ok k ->
  Py.lookup k d = Some node ->
  _pick_last_image (JObj h) = last_image_of node.
Proof.
  intros Hout Hk Hnode. unfold _pick_last_image.
  unfold Py.contains, Py.has_key. rewrite Hout.
  cbn [bindR negb]. unfold Py.getitem at 1. rewrite Hout. cbn [bindR].
  pose proof (last_node_nonempty _ _ Hk) as Hne.
  assert (Ht : Py.truthy (JObj d) = true)
    by (destruct d; [contradiction|reflexivity]).
  rewrite Ht. cbn [negb]. rewrite Hk. cbn [bindR].
  unfold Py.getitem at 1. now rewrite Hnode.
Qed.

(* ================================================================== *)
(** * The result selector *)



(** C5. The selector raises a [ValueError] in each of three cases: no
    "outputs" key, an empty "outputs" mapping, an empty "images" list in
    the selected node; the three errors differ. *)
Theorem C5_three_validation_errors :
  (forall h,
      Py.lookup "outputs" h = None ->
      _pick_last_image (JObj h) = Error (ValueError (NoOutputs (JObj h)))) /\
  (forall h,
      Py.lookup "outputs" h = Some (JObj []) ->
      _pick_last_image (JObj h) = Error (ValueError NoImagesInOutputs)) /\
  (forall h d k n,
      Py.lookup "outputs" h = Some (JObj d) ->
      last_node (JObj d) = Ok k ->
      Py.lookup k d = Some (JObj n) ->
      Py.lookup "images" n = Some (JArr []) ->
      _pick_last_image (JObj h) = Error (ValueError FinalNodeNoImages)) /\
  (forall x, NoOutputs x <> NoImagesInOutputs /\ NoOutputs x <> FinalNodeNoImages) /\
  NoImagesInOutputs <> FinalNodeNoImages.
Proof.
  repeat split; try discriminate.
  - intros h H. unfold _pick_last_image, Py.contains, Py.has_key.
    now rewrite H.
  - intros h H. unfold _pick_last_image, Py.contains, Py.has_key.
    rewrite H. cbn [bindR negb]. unfold Py.getitem. now rewrite H.
  - intros h d k n Hout Hk Hnode Himg.
    rewrite (pick_outputs _ _ _ _ Hout Hk Hnode).
    unfold last_image_of, Py.getitem. now rewrite Himg.
Qed.

Lemma C5_three_validation_errors_witness :
  _pick_last_image (JObj [("status", JObj [])])
  = Error (ValueError (NoOutputs (JObj [("status", JObj [])]))) /\
  _pick_last_image (JObj [("outputs", JObj [])])
  = Error (ValueError NoImagesInOutputs) /\
  _pick_last_image (JObj [("outputs", JObj [("3", node_with [])])])
  = Error (ValueError FinalNodeNoImages).
Proof.
  destruct C5_three_validation_errors as (H1 & H2 & H3 & _).
  split; [|split].
  - apply H1. reflexivity.
  - apply H2. reflexivity.
  - apply (H3 _ [("3", node_with [])] "3" [("images", JArr [])]); reflexivity.
Defined.

(** C8. When the "images" list of the selected node is not empty, the
    selector returns the filename and the subfolder of its last entry,
    with the empty string for a subfolder the entry does not have. *)
Theorem C8_last_entry_of_images :
  forall h d k n before entry filename,
    Py.lookup "outputs" h = Some (JObj d) ->
    last_node (JObj d) = Ok k ->
    Py.lookup k d = Some (JObj n) ->
    Py.lookup "images" n = Some (JArr (before ++ [JObj entry])) ->
    Py.lookup "filename" entry = Some filename ->
    _pick_last_image (JObj h)
    = Ok (filename,
          match Py.lookup "subfolder" entry with
          | Some subfolder => subfolder
          | None => JStr ""
          end).
Proof.
  intros h d k n before entry filename Hout Hk Hnode Himg Hfile.
  rewrite (pick_outputs _ _ _ _ Hout Hk Hnode).
  unfold last_image_of, Py.getitem at 1. rewrite Himg. cbn [bindR].
  assert (Ht : Py.truthy (JArr (before ++ [JObj entry])) = true).
  { simpl. now destruct before. }
  rewrite Ht. cbn [negb].
  unfold Py.index_last, Py.list_last. rewrite rev_unit. cbn [bindR].
  unfold Py.getitem, Py.get. rewrite Hfile. cbn [bindR].
  now destruct (Py.lookup "subfolder" entry).
Qed.

Lemma C8_last_entry_of_images_witness :
  _pick_last_image
    (JObj [("outputs",
            JObj [("4", node_with
                          [JObj [("filename", JStr "first.png");
                                 ("subfolder", JStr "a")];
                           JObj [("filename", JStr "last.png")]])])])
  = Ok (JStr "last.png", JStr "").
Proof.
  apply C8_last_entry_of_images
    with (d := [("4", node_with
                        [JObj [("filename", JStr "first.png");
                               ("subfolder", JStr "a")];
                         JObj [("filename", JStr "last.png")]])])
         (k := "4")
         (n := [("images",
                 JArr [JObj [("filename", JStr "first.png");
                             ("subfolder", JStr "a")];
                       JObj [("filename", JStr "last.png")]])])
         (before := [JObj [("filename", JStr "first.png");
                           ("subfolder", JStr "a")]])
         (entry := [("filename", JStr "last.png")]);
    reflexivity.
Defined.

(* ================================================================== *)
(** * Facts about paths and tokens *)

Open Scope string_scope.

Lemma length_append (a b : string) :
  String.length (a ++ b) = (String.length a + String.length b)%nat.
Proof. induction a as [|c a IH]; simpl; [reflexivity|]. now rewrite IH. Qed.

Lemma forallb_append (p : ascii -> bool) (a b : string) :
  Str.forallb p (a ++ b) = Str.forallb p a && Str.forallb p b.
Proof.
  induction a as [|c a IH]; simpl; [reflexivity|].
  now rewrite IH, andb_assoc.
Qed.

Lemma forallb_impl (p q : ascii -> bool) (s : string) :
  (forall c, p c = true -> q c = true) ->
  Str.forallb p s = true -> Str.forallb q s = true.
Proof.
  intros Hpq. induction s as [|c s IH]; simpl; [reflexivity|].
  intros H. apply andb_prop in H as [Hc Hs].
  now rewrite (Hpq _ Hc), IH.
Qed.

Lemma substring_skip (a b : string) :
  substring (String.length a) (String.length b) (a ++ b) = b.
Proof.
  induction a as [|c a IH]; simpl; [|exact IH].
  induction b as [|c b IH]; simpl; [reflexivity|].
  now rewrite IH.
Qed.

Lemma forallb_substring (p : ascii -> bool) (s : string) (i n : nat) :
  Str.forallb p s = true -> Str.forallb p (substring i n s) = true.
Proof.
  revert i n. induction s as [|c s IH]; intros i n H; simpl in *.
  - now destruct i, n.
  - apply andb_prop in H as [Hc Hs].
    destruct i as [|i]; [destruct n as [|n]|]; simpl; [reflexivity| |now apply IH].
    now rewrite Hc, IH.
Qed.

(** ** [rfind] and [suffix] *)

Lemma rfind_dot_None (s : string) :
  Pathlib.rfind_dot s = None -> no_dot s = true.
Proof.
  unfold no_dot. induction s as [|c s IH]; simpl; [reflexivity|].
  destruct (Pathlib.rfind_dot s); [discriminate|].
  destruct (Ascii.eqb c "."); [discriminate|]. intros _. now apply IH.
Qed.

Lemma rfind_dot_Some (s : string) (i : nat) :
  Pathlib.rfind_dot s = Some i ->
  exists a b, s = a ++ String "." b /\ String.length a = i /\ no_dot b = true.
Proof.
  revert i. induction s as [|c s IH]; intros i; simpl; [discriminate|].
  destruct (Pathlib.rfind_dot s) as [j|] eqn:E.
  - intros [= <-]. destruct (IH j eq_refl) as (a & b & -> & <- & Hb).
    now exists (String c a), b.
  - destruct (Ascii.eqb_spec c ".") as [->|]; [|discriminate].
    intros [= <-]. exists "", s. repeat split. now apply rfind_dot_None.
Qed.

Lemma rfind_dot_no_dot (s : string) :
  no_dot s = true -> Pathlib.rfind_dot s = None.
Proof.
  unfold no_dot. induction s as [|c s IH]; simpl; [reflexivity|].
  intros H. apply andb_prop in H as [Hc Hs]. rewrite (IH Hs).
  now destruct (Ascii.eqb c ".").
Qed.

Lemma rfind_dot_append (a b : string) :
  no_dot b = true ->
  Pathlib.rfind_dot (a ++ String "." b) = Some (String.length a).
Proof.
  intros Hb. induction a as [|c a IH]; simpl.
  - now rewrite (rfind_dot_no_dot _ Hb).
  - now rewrite IH.
Qed.

(** A suffix is empty, or the last dot of the name and what follows it,
    when the dot is neither the first nor the last character. *)
Lemma suffix_cases (p : Pathlib.path) :
  Pathlib.suffix p = "" \/
  exists a b,
    Pathlib.name p = a ++ String "." b /\ a <> "" /\ b <> "" /\
    no_dot b = true /\ Pathlib.suffix p = String "." b.
Proof.
  unfold Pathlib.suffix.
  destruct (Pathlib.rfind_dot (Pathlib.name p)) as [i|] eqn:E; [|now left].
  destruct (rfind_dot_Some _ _ E) as (a & b & En & <- & Hb).
  rewrite En, length_append. simpl String.length.
  destruct (0 <? String.length a)%nat eqn:H0; [|now left].
  destruct (S (String.length a) <? String.length a + S (String.length b))%nat
    eqn:H1; [|now left].
  right. exists a, b. apply Nat.ltb_lt in H0, H1.
  repeat split; try assumption.
  - intros ->. simpl in H0. lia.
  - intros ->. simpl in H1. lia.
  - simpl andb. cbv iota.
    replace (String.length a + S (String.length b) - String.length a)%nat
      with (String.length (String "." b)) by (simpl; lia).
    apply substring_skip.
Qed.

Lemma suffix_of_name (r : string) (ps : list string) (a b : string) :
  a <> "" -> b <> "" -> no_dot b = true ->
  Pathlib.suffix (Pathlib.mkPath r (ps ++ [(a ++ String "." b)%string])%list)
  = String "." b.
Proof.
  intros Ha Hb Hd. unfold Pathlib.suffix, Pathlib.name. simpl Pathlib.parts.
  rewrite last_last, (rfind_dot_append a b Hd), length_append. simpl String.length.
  assert (H0 : (0 <? String.length a)%nat = true).
  { apply Nat.ltb_lt. destruct a; [contradiction|simpl; lia]. }
  assert (H1 : (S (String.length a) <? String.length a + S (String.length b))%nat
               = true).
  { apply Nat.ltb_lt. destruct b; [contradiction|simpl; lia]. }
  rewrite H0, H1. simpl andb. cbv iota.
  replace (String.length a + S (String.length b) - String.length a)%nat
    with (String.length (String "." b)) by (simpl; lia).
  apply substring_skip.
Qed.

(** ** Components *)

Lemma split_no_slash (s x : string) :
  In x (Pathlib.split s) -> no_slash x = true.
Proof.
  revert x. induction s as [|c s IH]; intros x; simpl.
  - intros [<-|[]]. reflexivity.
  - destruct (Ascii.eqb c "/") eqn:Ec.
    + intros [<-|H]; [reflexivity|now apply IH].
    + destruct (Pathlib.split s) as [|h r] eqn:Es.
      * intros [<-|[]]. unfold no_slash. simpl. now rewrite Ec.
      * intros [<-|H].
        -- unfold no_slash. simpl. rewrite Ec. simpl.
           apply (IH h). now left.
        -- apply IH. now right.
Qed.

Lemma split_single (s : string) :
  no_slash s = true -> Pathlib.split s = [s].
Proof.
  unfold no_slash. induction s as [|c s IH]; simpl; [reflexivity|].
  intros H. apply andb_prop in H as [Hc Hs].
  apply negb_true_iff in Hc. rewrite Hc, (IH Hs). reflexivity.
Qed.

Lemma splitroot_relative (c : ascii) (s : string) :
  Ascii.eqb c "/" = false ->
  Pathlib.splitroot (String c s) = ("", String c s).
Proof.
  intros H. unfold Pathlib.splitroot.
  destruct c as [[] [] [] [] [] [] [] []]; try reflexivity; discriminate H.
Qed.

(** A single component, as a path. *)
Lemma Path_component (s : string) :
  no_slash s = true -> s <> "" -> s <> "." ->
  Pathlib.Path s = Pathlib.mkPath "" [s].
Proof.
  intros Hs He Hd. unfold Pathlib.Path.
  destruct s as [|c s]; [contradiction|].
  assert (Hc : Ascii.eqb c "/" = false).
  { unfold no_slash in Hs. simpl in Hs. apply andb_prop in Hs as [Hc _].
    now apply negb_true_iff in Hc. }
  rewrite (splitroot_relative _ _ Hc), (split_single _ Hs). simpl filter.
  unfold Pathlib.is_component.
  destruct (String.eqb_spec (String c s) ""); [contradiction|].
  destruct (String.eqb_spec (String c s) "."); [contradiction|].
  reflexivity.
Qed.

Lemma joinpath_component (dir : Pathlib.path) (s : string) :
  no_slash s = true -> s <> "" -> s <> "." ->
  Pathlib.joinpath dir s
  = Pathlib.mkPath (Pathlib.root dir) (Pathlib.parts dir ++ [s])%list.
Proof.
  intros Hs He Hd. unfold Pathlib.joinpath.
  now rewrite (Path_component _ Hs He Hd).
Qed.

Lemma name_no_slash (s : string) : no_slash (Pathlib.name (Pathlib.Path s)) = true.
Proof.
  unfold Pathlib.name, Pathlib.Path.
  destruct (Pathlib.splitroot s) as [r rel]. simpl Pathlib.parts.
  set (ps := filter Pathlib.is_component (Pathlib.split rel)).
  assert (H : forall x, In x ps -> no_slash x = true).
  { intros x Hx. apply filter_In in Hx as [Hx _]. now apply split_no_slash in Hx. }
  destruct ps as [|p ps'] eqn:E; [reflexivity|].
  apply H. rewrite <- E. apply last_In. rewrite E. discriminate.
Qed.

(** ** The extension and the token *)

Lemma extension_of_cases (filename : string) :
  exists b,
    extension_of filename = String "." b /\ b <> "" /\
    no_dot b = true /\ no_slash b = true.
Proof.
  unfold extension_of.
  destruct (suffix_cases (Pathlib.Path filename))
    as [->|(a & b & En & Ha & Hb & Hd & ->)].
  - exists "png". repeat split; discriminate.
  - exists b. repeat split; try assumption.
    pose proof (name_no_slash filename) as Hn. rewrite En in Hn.
    unfold no_slash in *. rewrite forallb_append in Hn.
    apply andb_prop in Hn as [_ Hn]. exact Hn.
Qed.

Lemma hex_digits_length (k : nat) (n : Z) (acc : string) :
  String.length (Uuid.hex_digits k n acc) = (k + String.length acc)%nat.
Proof.
  revert n acc. induction k as [|k IH]; intros n acc; simpl; [reflexivity|].
  rewrite IH. simpl. lia.
Qed.

Lemma hex_char_is_hex (d : Z) : Uuid.is_hex_char (Uuid.hex_char d) = true.
Proof.
  unfold Uuid.hex_char. generalize (Z.to_nat d). intros n.
  do 16 (destruct n as [|n]; [reflexivity|]). reflexivity.
Qed.

Lemma hex_digits_is_hex (k : nat) (n : Z) (acc : string) :
  Str.forallb Uuid.is_hex_char acc = true ->
  Str.forallb Uuid.is_hex_char (Uuid.hex_digits k n acc) = true.
Proof.
  revert n acc. induction k as [|k IH]; intros n acc H; simpl; [exact H|].
  apply IH. simpl. now rewrite hex_char_is_hex.
Qed.

(** The token is 32 hexadecimal digits. *)
Lemma hex_length (r : Z) : String.length (Uuid.hex r) = 32%nat.
Proof. unfold Uuid.hex. now rewrite hex_digits_length. Qed.

Lemma hex_is_hex (r : Z) : Str.forallb Uuid.is_hex_char (Uuid.hex r) = true.
Proof. unfold Uuid.hex. now apply hex_digits_is_hex. Qed.

Lemma is_hex_char_plain (c : ascii) :
  Uuid.is_hex_char c = true ->
  negb (Ascii.eqb c "/") = true /\ negb (Ascii.eqb c ".") = true.
Proof.
  intros H.
  destruct (Ascii.eqb_spec c "/") as [->|]; [vm_compute in H; discriminate H|].
  destruct (Ascii.eqb_spec c ".") as [->|]; [vm_compute in H; discriminate H|].
  split; reflexivity.
Qed.

Lemma hex_nonempty (r : Z) : Uuid.hex r <> "".
Proof.
  intros E. pose proof (hex_length r) as H. rewrite E in H. discriminate H.
Qed.

(** ** The local path *)

Lemma local_name_plain (r : Z) (filename : string) :
  let name := Uuid.hex r ++ extension_of filename in
  no_slash name = true /\ name <> "" /\ name <> ".".
Proof.
  intros name. subst name.
  destruct (extension_of_cases filename) as (b & -> & Hb & Hd & Hs).
  pose proof (hex_is_hex r) as Hh. pose proof (hex_length r) as Hl.
  repeat split.
  - unfold no_slash. rewrite forallb_append. apply andb_true_intro. split.
    + eapply forallb_impl; [|exact Hh]. intros c Hc.
      now destruct (is_hex_char_plain _ Hc).
    + exact Hs.
  - intros E. apply (f_equal String.length) in E.
    rewrite length_append, Hl in E. discriminate E.
  - intros E. apply (f_equal String.length) in E.
    rewrite length_append, Hl in E. discriminate E.
Qed.

Lemma local_path_shape (dir : Pathlib.path) (r : Z) (filename : string) :
  let name := Uuid.hex r ++ extension_of filename in
  let p := Pathlib.joinpath dir name in
  p = Pathlib.mkPath (Pathlib.root dir) (Pathlib.parts dir ++ [name])%list /\
  Pathlib.parent p = dir /\
  Pathlib.name p = name /\
  Pathlib.suffix p = extension_of filename.
Proof.
  intros name p. subst p.
  destruct (local_name_plain r filename) as (Hs & He & Hd). fold name in Hs, He, Hd.
  rewrite (joinpath_component dir _ Hs He Hd).
  split; [reflexivity|]. split; [|split].
  - unfold Pathlib.parent. simpl. rewrite removelast_last. now destruct dir.
  - unfold Pathlib.name. simpl. now rewrite last_last.
  - subst name.
    destruct (extension_of_cases filename) as (b & -> & Hb & Hdot & _).
    apply suffix_of_name; [apply hex_nonempty|exact Hb|exact Hdot].
Qed.

(* ================================================================== *)
(** * Facts about effectful code *)

Lemma bind_ok {A B : Type} (m : M A) (k : A -> M B) (w w1 : world) (a : A) :
  m w = Some (Ok a, w1) -> bind m k w = k a w1.
Proof. unfold bind. now intros ->. Qed.

Lemma bind_error {A B : Type} (m : M A) (k : A -> M B) (w w1 : world) (e : exn) :
  m w = Some (Error e, w1) -> bind m k w = Some (Error e, w1).
Proof. unfold bind. now intros ->. Qed.







(** ** Writing the file *)

Lemma path_eqb_refl (p : Pathlib.path) : Pathlib.eqb p p = true.
Proof.
  unfold Pathlib.eqb. rewrite String.eqb_refl.
  now destruct (list_eq_dec string_dec (Pathlib.parts p) (Pathlib.parts p)).
Qed.

Lemma lookup_fresh (p : Pathlib.path) (n : node) (f : fs) :
  Pathlib.parts p <> [] -> Fs.lookup ((p, n) :: f) p = Some n.
Proof.
  intros H. unfold Fs.lookup. destruct (Pathlib.parts p); [contradiction|].
  simpl. now rewrite path_eqb_refl.
Qed.



(** ** [_download_image] read backwards from a success *)


(* ================================================================== *)
(** * The result fetcher *)







(* ================================================================== *)
(** * Facts about the completion poller *)

Open Scope list_scope.


Lemma Qlt_bool_false (x y : Q) : Qlt_bool x y = false <-> (y <= x)%Q.
Proof.
  unfold Qlt_bool. rewrite negb_false_iff. apply Qle_bool_iff.
Qed.

(** ** What a reading of the history says *)

Lemma examine_object (prompt_id : string) (items : list (string * json)) :
  examine prompt_id (JObj items)
  = match Py.lookup prompt_id items with
    | None => Ok Absent
    | Some data =>
        let? status := Py.get data "status" (JObj []) in
        let? completed := Py.get status "completed" (JBool false) in
        if negb (Py.truthy completed) then Ok Unfinished else Ok (Done data)
    end.
Proof.
  unfold examine, Py.contains, Py.getitem, Py.has_key. cbn [Py.truthy].
  destruct (Py.lookup prompt_id items) as [d|] eqn:El.
  - destruct items as [|kv items']; [discriminate El|]. reflexivity.
  - now destruct items.
Qed.

Lemma examine_done (prompt_id : string) (hist data : json) :
  examine prompt_id hist = Ok (Done data) <-> job_done prompt_id hist data.
Proof.
  unfold job_done, completed_flag. split.
  - destruct hist as [|b|z|f|s|l|items].
    + discriminate.
    + unfold examine. simpl. destruct b; discriminate.
    + unfold examine. simpl. destruct (Z.eqb z 0); discriminate.
    + unfold examine. simpl. destruct f; discriminate.
    + unfold examine. simpl. destruct (String.eqb s ""); simpl; [discriminate|].
      destruct (Str.contains prompt_id s); discriminate.
    + unfold examine. destruct l as [|x l]; [discriminate|]. simpl.
      destruct (Py.is_str prompt_id x || existsb (Py.is_str prompt_id) l);
        discriminate.
    + rewrite examine_object.
      destruct (Py.lookup prompt_id items) as [d|] eqn:El; [|discriminate].
      destruct d as [|b|z|f|s|l|dd]; try (cbn; discriminate).
      unfold Py.get at 1.
      destruct (Py.lookup "status" dd) as [st|] eqn:Es; cbn [bindR].
      * destruct st as [|b|z|f|s|l|st]; try (cbn; discriminate). unfold Py.get.
        destruct (Py.lookup "completed" st) as [flag|] eqn:Ef; cbn [bindR];
          [|discriminate].
        destruct (Py.truthy flag) eqn:Et; [|discriminate].
        intros [= <-]. exists items, flag. rewrite Es. now repeat split.
      * discriminate.
  - intros (items & flag & -> & Hl & Hf & Ht).
    rewrite examine_object, Hl.
    destruct data as [|b|z|f|s|l|dd]; try discriminate.
    unfold Py.get at 1.
    destruct (Py.lookup "status" dd) as [[|b|z|f|s|l|st]|];
      try discriminate.
    cbn [bindR]. unfold Py.get. rewrite Hf. cbn [bindR]. now rewrite Ht.
Qed.

Lemma examine_pending (prompt_id : string) (hist : json) :
  job_pending prompt_id hist ->
  exists v, examine prompt_id hist = Ok v /\ is_done v = false.
Proof.
  intros (items & -> & H). rewrite examine_object.
  destruct H as [Hl|(data & Hl & d & -> & Hs)]; rewrite Hl.
  - now exists Absent.
  - unfold Py.get at 1.
    destruct Hs as [Hs|(st & Hs & Hc)]; rewrite Hs; cbn [bindR].
    + now exists Unfinished.
    + unfold Py.get.
      destruct Hc as [Hc|(flag & Hc & Ht)]; rewrite Hc; cbn [bindR].
      * now exists Unfinished.
      * rewrite Ht. now exists Unfinished.
Qed.


(** ** One turn of the loop *)

Lemma wait_loop_step (n : nat) (prompt_id url : string) (poll : Q)
  (timeout : Z) (t0 : Q) (w : world) (r : response) (rest : list reply)
  (hist : json) :
  replies w = Answer r :: rest ->
  answers r hist ->
  wait_loop (S n) prompt_id url poll timeout t0 w
  = let w1 := with_replies rest (log (GET url false 30) w) in
    match examine prompt_id hist with
    | Error e => Some (Error e, w1)
    | Ok (Done data) => Some (Ok data, w1)
    | Ok v =>
        (now <- time_time ;;
         if Qlt_bool (inject_Z timeout) (now - t0)
         then raise (TimeoutError (timeout_error_of v prompt_id timeout))
         else time_sleep poll ;;
              wait_loop n prompt_id url poll timeout t0) w1
    end.
Proof.
  intros Hr [Hst Hj]. cbn [wait_loop].
  unfold bind at 1. unfold requests_get. rewrite Hr.
  unfold bind at 1. unfold raise_for_status. rewrite Hst. unfold ret at 1.
  unfold bind at 1. unfold response_json. rewrite Hj. unfold ret at 1.
  cbv zeta. unfold examine.
  destruct (negb (Py.truthy hist)).
  - reflexivity.
  - unfold bind at 1. unfold bind at 1.
    destruct (Py.contains prompt_id hist) as [present|e]; [|reflexivity].
    cbn [lift ret bindR]. destruct (negb present); [reflexivity|].
    unfold bind at 1.
    destruct (Py.getitem hist prompt_id) as [data|e]; [|reflexivity].
    cbn [lift ret bindR]. unfold bind at 1.
    destruct (Py.get data "status" (JObj [])) as [status|e]; [|reflexivity].
    cbn [lift ret bindR]. unfold bind at 1.
    destruct (Py.get status "completed" (JBool false)) as [completed|e];
      [|reflexivity].
    cbn [lift ret bindR]. now destruct (negb (Py.truthy completed)).
Qed.

(** ** Polls that find the job pending *)

Section Poller.

Variables (prompt_id url : string) (poll : Q) (timeout : Z) (t0 : Q).

Lemma wait_loop_retries (rs : list response) :
  forall (ts : list Q) (n : nat) (w : world) (rest : list reply) (later : list Q),
    Qle_bool 0 poll = true ->
    List.length ts = List.length rs ->
    Forall (pending_answer prompt_id) rs ->
    Forall (in_time timeout t0) ts ->
    replies w = map Answer rs ++ rest ->
    clock w = ts ++ later ->
    wait_loop (List.length rs + n) prompt_id url poll timeout t0 w
    = wait_loop n prompt_id url poll timeout t0
        (mkWorld (objects w) (files w) rest later (entropy w)
           (calls w ++ retries url poll (List.length rs))).
Proof.
  induction rs as [|r rs IH]; intros ts n w rest later Hpoll Hlen Hrs Hts Hrep Hclk.
  - destruct ts; [|discriminate Hlen]. simpl in *.
    rewrite app_nil_r. rewrite <- Hrep, <- Hclk. now destruct w.
  - destruct ts as [|t ts]; [discriminate Hlen|].
    injection Hlen as Hlen.
    apply Forall_cons_iff in Hrs as [(hist & Hans & Hpend) Hrs].
    apply Forall_cons_iff in Hts as [Ht Hts].
    simpl in Hrep, Hclk. simpl List.length. simpl Nat.add.
    rewrite (wait_loop_step _ _ _ _ _ _ _ _ _ _ Hrep Hans). cbv zeta.
    destruct (examine_pending _ _ Hpend) as (v & -> & Hv).
    assert (Hlate : Qlt_bool (inject_Z timeout) (t - t0) = false)
      by now apply Qlt_bool_false.
    assert (Hgo :
      (now <- time_time ;;
       if Qlt_bool (inject_Z timeout) (now - t0)
       then raise (TimeoutError (timeout_error_of v prompt_id timeout))
       else time_sleep poll ;; wait_loop (List.length rs + n) prompt_id url poll timeout t0)
        (with_replies (map Answer rs ++ rest) (log (GET url false 30) w))
      = wait_loop (List.length rs + n) prompt_id url poll timeout t0
          (log (SLEEP poll)
             (with_clock (ts ++ later)
                (with_replies (map Answer rs ++ rest)
                   (log (GET url false 30) w))))).
    { unfold bind at 1. unfold time_time. simpl clock. rewrite Hclk.
      rewrite Hlate. unfold bind, time_sleep. now rewrite Hpoll. }
    destruct v; [| |discriminate Hv]; rewrite Hgo;
      (rewrite (IH ts n _ rest later Hpoll Hlen Hrs Hts);
       [|reflexivity|reflexivity]);
      simpl; now rewrite <- !app_assoc.
Qed.

(** ** The loop read backwards from its outcome *)


End Poller.

(* ================================================================== *)
(** * The completion poller *)

Lemma wait_until_done_start (prompt_id host : string) (poll : Q) (timeout : Z)
  (w : world) (t0 : Q) (later : list Q) :
  clock w = t0 :: later ->
  _wait_until_done prompt_id host poll timeout w
  = wait_loop (S (List.length (replies w))) prompt_id
      (history_url host prompt_id) poll timeout t0 (with_clock later w).
Proof.
  intros H. unfold _wait_until_done, bind, time_time. now rewrite H.
Qed.


Lemma reply_empty_pending : pending_answer "abc" reply_empty.
Proof.
  exists (JObj []). split; [now split|]. exists []. split; [reflexivity|now left].
Qed.

Lemma reply_running_pending : pending_answer "abc" reply_running.
Proof.
  exists (JObj [("abc", status_of false)]). split; [now split|].
  eexists. split; [reflexivity|]. right. eexists. split; [reflexivity|].
  eexists. split; [reflexivity|]. right. eexists. split; [reflexivity|].
  right. now exists (JBool false).
Qed.

Lemma reply_done_done : done_answer "abc" reply_done (status_of true).
Proof.
  exists (JObj [("abc", status_of true)]). split; [now split|].
  eexists. exists (JBool true). now repeat split.
Qed.


(* ================================================================== *)
(** * Facts about stored objects *)

Lemma mapO_impl {A B : Type} (f g : A -> option B) (l : list A) (bs : list B) :
  (forall a b, In a l -> f a = Some b -> g a = Some b) ->
  Store.mapO f l = Some bs -> Store.mapO g l = Some bs.
Proof.
  revert bs. induction l as [|a l IH]; intros bs Hfg; simpl; [easy|].
  destruct (f a) as [b|] eqn:Ea; [|discriminate].
  destruct (Store.mapO f l) as [bs'|] eqn:El; [|discriminate].
  intros [= <-].
  rewrite (Hfg a b (or_introl eq_refl) Ea).
  rewrite (IH bs'); [reflexivity| |reflexivity].
  intros a' b' Hin. apply Hfg. now right.
Qed.

Lemma dumps_fuel (n : nat) :
  forall (s : store) (v : value) (j : json) (m : nat),
    Store.dumps n s v = Some j -> n <= m -> Store.dumps m s v = Some j.
Proof.
  induction n as [|n IH]; intros s v j m H Hle; [discriminate H|].
  destruct m as [|m]; [lia|]. simpl in *.
  destruct v as [|b|z|f|x|l]; try exact H.
  destruct (nth_error s l) as [[items|items]|]; [| |discriminate H].
  - destruct (Store.mapO (Store.dumps n s) items) as [js|] eqn:E;
      [|discriminate H].
    erewrite mapO_impl; [exact H| |exact E].
    intros a b _ Ha. apply IH; [exact Ha|lia].
  - destruct (Store.mapO
                (fun kv => option_map (pair (fst kv)) (Store.dumps n s (snd kv)))
                items) as [js|] eqn:E; [|discriminate H].
    erewrite mapO_impl; [exact H| |exact E].
    intros a b _ Ha. cbv beta in *.
    destruct (Store.dumps n s (snd a)) as [x|] eqn:Ex; [|discriminate Ha].
    rewrite (IH _ _ _ m Ex); [exact Ha|lia].
Qed.

Lemma dumps_extend (n : nat) :
  forall (s t : store) (v : value) (j : json),
    Store.dumps n s v = Some j -> Store.dumps n (s ++ t) v = Some j.
Proof.
  induction n as [|n IH]; intros s t v j H; [discriminate H|].
  simpl in *. destruct v as [|b|z|f|x|l]; try exact H.
  destruct (nth_error s l) as [o|] eqn:El; [|discriminate H].
  rewrite nth_error_app1 by (apply nth_error_Some; congruence).
  rewrite El. destruct o as [items|items].
  - destruct (Store.mapO (Store.dumps n s) items) as [js|] eqn:E;
      [|discriminate H].
    erewrite mapO_impl; [exact H| |exact E].
    intros a b _ Ha. now apply IH.
  - destruct (Store.mapO
                (fun kv => option_map (pair (fst kv)) (Store.dumps n s (snd kv)))
                items) as [js|] eqn:E; [|discriminate H].
    erewrite mapO_impl; [exact H| |exact E].
    intros a b _ Ha. cbv beta in *.
    destruct (Store.dumps n s (snd a)) as [x|] eqn:Ex; [|discriminate Ha].
    now rewrite (IH _ t _ _ Ex).
Qed.

Lemma depth_member (d : list (string * json)) (kv : string * json) :
  In kv d -> depth (snd kv) < depth (JObj d).
Proof.
  simpl. induction d as [|x d IH]; [contradiction|].
  intros [->|H]; simpl; [lia|]. specialize (IH H). lia.
Qed.

Lemma depth_item (l : list json) (x : json) :
  In x l -> depth x < depth (JArr l).
Proof.
  simpl. induction l as [|y l IH]; [contradiction|].
  intros [->|H]; simpl; [lia|]. specialize (IH H). lia.
Qed.

Lemma alloc_items_ok (d : list (string * json)) :
  Forall (fun kv => alloc_ok (snd kv)) d ->
  forall (s : store) (N : nat),
    (forall kv, In kv d -> depth (snd kv) <= N) ->
    (exists t, snd (Store.alloc_items Store.alloc d s) = s ++ t) /\
    Store.mapO
      (fun kv =>
         option_map (pair (fst kv))
           (Store.dumps N (snd (Store.alloc_items Store.alloc d s)) (snd kv)))
      (fst (Store.alloc_items Store.alloc d s))
    = Some d.
Proof.
  induction 1 as [|[k x] d Hx Hd IH]; intros s N HN.
  - split; [exists []; now rewrite app_nil_r|reflexivity].
  - simpl Store.alloc_items. simpl in Hx.
    destruct (Hx s) as [(t1 & E1) Hv].
    destruct (Store.alloc x s) as [v s1] eqn:Ea. simpl in E1, Hv. subst s1.
    destruct (IH (s ++ t1) N) as [(t2 & E2) Hkvs].
    { intros kv Hin. apply HN. now right. }
    destruct (Store.alloc_items Store.alloc d (s ++ t1)) as [kvs s2] eqn:Ei.
    simpl in E2, Hkvs. subst s2. simpl. split.
    + exists (t1 ++ t2). now rewrite app_assoc.
    + assert (Hv' : Store.dumps N ((s ++ t1) ++ t2) v = Some x).
      { apply dumps_extend. apply dumps_fuel with (n := depth x); [exact Hv|].
        apply (HN (k, x)). now left. }
      rewrite Hv'. simpl. now rewrite Hkvs.
Qed.

Lemma alloc_list_ok (l : list json) :
  Forall alloc_ok l ->
  forall (s : store) (N : nat),
    (forall x, In x l -> depth x <= N) ->
    (exists t, snd (Store.alloc_list Store.alloc l s) = s ++ t) /\
    Store.mapO (Store.dumps N (snd (Store.alloc_list Store.alloc l s)))
      (fst (Store.alloc_list Store.alloc l s))
    = Some l.
Proof.
  induction 1 as [|x l Hx Hl IH]; intros s N HN.
  - split; [exists []; now rewrite app_nil_r|reflexivity].
  - simpl Store.alloc_list.
    destruct (Hx s) as [(t1 & E1) Hv].
    destruct (Store.alloc x s) as [v s1] eqn:Ea. simpl in E1, Hv. subst s1.
    destruct (IH (s ++ t1) N) as [(t2 & E2) Hvs].
    { intros y Hin. apply HN. now right. }
    destruct (Store.alloc_list Store.alloc l (s ++ t1)) as [vs s2] eqn:Ei.
    simpl in E2, Hvs. subst s2. simpl. split.
    + exists (t1 ++ t2). now rewrite app_assoc.
    + assert (Hv' : Store.dumps N ((s ++ t1) ++ t2) v = Some x).
      { apply dumps_extend. apply dumps_fuel with (n := depth x); [exact Hv|].
        apply HN. now left. }
      now rewrite Hv', Hvs.
Qed.

Lemma nth_error_last {A : Type} (s : list A) (o : A) :
  nth_error (s ++ [o]) (List.length s) = Some o.
Proof.
  rewrite nth_error_app2 by lia. now rewrite Nat.sub_diag.
Qed.

(** [json.dumps(json.loads(text))] gives the document back. *)
Lemma alloc_spec (j : json) : alloc_ok j.
Proof.
  induction j as [|b|z|f|x|l IH|d IH] using json_induction; intros s;
    try (split; [exists []; now rewrite app_nil_r|reflexivity]).
  - set (N := fold_right Nat.max 0 (map depth l)).
    destruct (alloc_list_ok l IH s N) as [(t & E) Hvs].
    { intros x Hx. pose proof (depth_item l x Hx) as Hlt.
      change (depth (JArr l)) with (S N) in Hlt. lia. }
    simpl Store.alloc.
    destruct (Store.alloc_list Store.alloc l s) as [vs s1] eqn:Ea.
    simpl in E, Hvs. subst s1. simpl fst. simpl snd. split.
    + exists (t ++ [OList vs]). now rewrite app_assoc.
    + change (depth (JArr l)) with (S N).
      cbn [Store.dumps]. rewrite nth_error_last.
      erewrite mapO_impl; [reflexivity| |exact Hvs].
      intros a b _ Ha. now apply dumps_extend.
  - set (N := fold_right Nat.max 0 (map (fun kv => depth (snd kv)) d)).
    destruct (alloc_items_ok d IH s N) as [(t & E) Hkvs].
    { intros kv Hkv. pose proof (depth_member d kv Hkv) as Hlt.
      change (depth (JObj d)) with (S N) in Hlt. lia. }
    simpl Store.alloc.
    destruct (Store.alloc_items Store.alloc d s) as [kvs s1] eqn:Ea.
    simpl in E, Hkvs. subst s1. simpl fst. simpl snd. split.
    + exists (t ++ [ODict kvs]). now rewrite app_assoc.
    + change (depth (JObj d)) with (S N).
      cbn [Store.dumps]. rewrite nth_error_last.
      erewrite mapO_impl; [reflexivity| |exact Hkvs].
      intros a b _ Ha. cbv beta in *.
      destruct (Store.dumps N (s ++ t) (snd a)) as [y|] eqn:Ey;
        [|discriminate Ha].
      now rewrite (dumps_extend _ _ [ODict kvs] _ _ Ey).
Qed.

(** ** Members of a stored [dict] *)

Lemma dumps_object (n : nat) (s : store) (v : value) (d : list (string * json)) :
  Store.dumps n s v = Some (JObj d) ->
  exists m l kvs,
    n = S m /\ v = VRef l /\ nth_error s l = Some (ODict kvs) /\
    Store.mapO
      (fun kv => option_map (pair (fst kv)) (Store.dumps m s (snd kv))) kvs
    = Some d.
Proof.
  destruct n as [|m]; [discriminate|]. simpl.
  destruct v as [|b|z|f|x|l]; try discriminate.
  destruct (nth_error s l) as [[items|items]|] eqn:El; [| |discriminate].
  - destruct (Store.mapO _ items); discriminate.
  - destruct (Store.mapO _ items) as [d'|] eqn:E; [|discriminate].
    intros [= <-]. now exists m, l, items.
Qed.

Lemma members_lookup (g : value -> option json) (kvs : list (string * value)) :
  forall (d : list (string * json)) (k : string),
    Store.mapO (fun kv => option_map (pair (fst kv)) (g (snd kv))) kvs = Some d ->
    match Py.lookup k d with
    | Some j => exists v, Py.lookup k kvs = Some v /\ g v = Some j
    | None => Py.lookup k kvs = None
    end.
Proof.
  induction kvs as [|[k' v] kvs IH]; intros d k; simpl.
  - now intros [= <-].
  - destruct (g v) as [j|] eqn:Eg; [|discriminate]. simpl.
    destruct (Store.mapO _ kvs) as [d'|] eqn:E; [|discriminate].
    intros [= <-]. simpl.
    destruct (String.eqb k k'); [now exists v|]. now apply IH.
Qed.

Lemma field_of_document (n : nat) (s : store) (v : value)
  (d : list (string * json)) (k : string) (j : json) :
  Store.dumps n s v = Some (JObj d) ->
  Py.lookup k d = Some j ->
  exists x m, field s v k = Some x /\ Store.dumps m s x = Some j.
Proof.
  intros H Hk. apply dumps_object in H as (m & l & kvs & _ & -> & Hl & Hm).
  pose proof (members_lookup _ _ _ k Hm) as Hlk. rewrite Hk in Hlk.
  destruct Hlk as (x & Hx & Hj). exists x, m. unfold field. now rewrite Hl.
Qed.

Lemma field_absent (n : nat) (s : store) (v : value)
  (d : list (string * json)) (k : string) :
  Store.dumps n s v = Some (JObj d) ->
  Py.lookup k d = None ->
  exists l kvs,
    v = VRef l /\ nth_error s l = Some (ODict kvs) /\ Py.lookup k kvs = None.
Proof.
  intros H Hk. apply dumps_object in H as (m & l & kvs & _ & -> & Hl & Hm).
  pose proof (members_lookup _ _ _ k Hm) as Hlk. rewrite Hk in Hlk.
  now exists l, kvs.
Qed.

(** ** Assignment to a member *)

Lemma nth_error_update_same (s : store) (l : nat) (o o' : object) :
  nth_error s l = Some o' -> nth_error (Store.update l o s) l = Some o.
Proof.
  revert l. induction s as [|x s IH]; intros [|l]; simpl; try discriminate.
  - reflexivity.
  - apply IH.
Qed.

Lemma nth_error_update_other (s : store) (l l' : nat) (o : object) :
  l' <> l -> nth_error (Store.update l o s) l' = nth_error s l'.
Proof.
  revert l l'. induction s as [|x s IH]; intros [|l] [|l'] H; simpl;
    try reflexivity; try contradiction.
  apply IH. congruence.
Qed.

Lemma field_after_setitem (s : store) (l : nat) (d : list (string * value))
  (k : string) (x : value) (v : value) (k' : string) :
  nth_error s l = Some (ODict d) ->
  k' <> k ->
  field (Store.update l (ODict (Py.set k x d)) s) v k' = field s v k'.
Proof.
  intros Hl Hk. unfold field. destruct v as [|b|z|f|y|l']; try reflexivity.
  destruct (Nat.eq_dec l' l) as [->|Hne].
  - rewrite (nth_error_update_same _ _ _ _ Hl), Hl.
    now apply lookup_set_other.
  - now rewrite nth_error_update_other.
Qed.

Lemma field_set_by_setitem (s : store) (l : nat) (d : list (string * value))
  (k : string) (x : value) :
  nth_error s l = Some (ODict d) ->
  field (Store.update l (ODict (Py.set k x d)) s) (VRef l) k = Some x.
Proof.
  intros Hl. unfold field. rewrite (nth_error_update_same _ _ _ _ Hl).
  apply lookup_set_same.
Qed.

Lemma obj_getitem_field (v : value) (k : string) (w : world) (x : value) :
  field (objects w) v k = Some x -> obj_getitem v k w = Some (Ok x, w).
Proof.
  unfold field, obj_getitem, bind, deref.
  destruct v as [|b|z|f|y|l]; try discriminate.
  destruct (nth_error (objects w) l) as [[items|items]|]; try discriminate.
  now intros ->.
Qed.

Lemma obj_getitem_absent (l : nat) (k : string) (w : world)
  (d : list (string * value)) :
  nth_error (objects w) l = Some (ODict d) ->
  Py.lookup k d = None ->
  obj_getitem (VRef l) k w = Some (Error (KeyError (JStr k)), w).
Proof.
  intros Hl Hk. unfold obj_getitem, bind, deref. now rewrite Hl, Hk.
Qed.

Lemma obj_setitem_dict (l : nat) (k : string) (x : value) (w : world)
  (d : list (string * value)) :
  nth_error (objects w) l = Some (ODict d) ->
  obj_setitem (VRef l) k x w
  = Some (Ok tt,
          with_objects (Store.update l (ODict (Py.set k x d)) (objects w)) w).
Proof.
  intros Hl. unfold obj_setitem, bind, deref. now rewrite Hl.
Qed.

(** Writing the text through [nodo_6] shows through [workflow], whatever
    the objects share. *)
Lemma text_read_back (w : world) (workflow nodo_6 : value) (l : nat)
  (d : list (string * value)) (text : value) :
  field (objects w) workflow "6" = Some nodo_6 ->
  field (objects w) nodo_6 "inputs" = Some (VRef l) ->
  nth_error (objects w) l = Some (ODict d) ->
  let w' := with_objects
              (Store.update l (ODict (Py.set "text" text d)) (objects w)) w in
  text_of_node_6 workflow w' = Some (Ok text, w').
Proof.
  intros H6 Hin Hl w'. unfold text_of_node_6.
  rewrite (bind_ok _ _ w' w' nodo_6).
  2: { apply obj_getitem_field. simpl.
       rewrite (field_after_setitem _ _ _ _ _ _ _ Hl); [exact H6|discriminate]. }
  rewrite (bind_ok _ _ w' w' (VRef l)).
  2: { apply obj_getitem_field. simpl.
       rewrite (field_after_setitem _ _ _ _ _ _ _ Hl); [exact Hin|discriminate]. }
  apply obj_getitem_field. simpl. now apply field_set_by_setitem.
Qed.

(* ================================================================== *)
(** * The workflow loader *)

Lemma with_files_same (w : world) : with_files (files w) w = w.
Proof. now destruct w. Qed.

Lemma read_text_ok (p : Pathlib.path) (w : world) (raw : string) :
  Fs.read_text p (files w) = Ok raw -> read_text p w = Some (Ok raw, w).
Proof.
  intros H. unfold read_text, on_files. now rewrite H, with_files_same.
Qed.

(** The workflow just loaded reads back as the decoded document. *)
Lemma new_object_document (j : json) (w : world) :
  exists workflow s,
    new_object j w = Some (Ok workflow, with_objects s w) /\
    Store.dumps (depth j) s workflow = Some j.
Proof.
  unfold new_object. destruct (alloc_spec j (objects w)) as [_ H].
  destruct (Store.alloc j (objects w)) as [v s]. now exists v, s.
Qed.

(** C3, as amended. When node "6" of the workflow is an object whose
    "inputs" member is an object, [load_workflow] returns the workflow
    with the prompt, verbatim, at ["6"]["inputs"]["text"]. *)
Theorem C3_prompt_written_into_node_6 :
  forall (json_loads : string -> option json)
         (workflow_path prompt_text raw : string) (w : world)
         (d node inputs : list (string * json)),
    Fs.read_text (Pathlib.Path workflow_path) (files w) = Ok raw ->
    json_loads raw = Some (JObj d) ->
    Py.lookup "6" d = Some (JObj node) ->
    Py.lookup "inputs" node = Some (JObj inputs) ->
    prompt_injected json_loads workflow_path prompt_text w.
Proof.
  intros json_loads workflow_path prompt_text raw w d node inputs
    Hraw Hload H6 Hin.
  destruct (new_object_document (JObj d) w) as (workflow & s & Hnew & Hdoc).
  destruct (field_of_document _ _ _ _ _ _ Hdoc H6) as (nodo_6 & m & Hf6 & Hd6).
  destruct (field_of_document _ _ _ _ _ _ Hd6 Hin) as (vin & m' & Hfin & Hdin).
  apply dumps_object in Hdin as (m'' & l & kvs & _ & -> & Hl & _).
  set (w1 := with_objects s w) in *.
  set (w2 := with_objects
               (Store.update l (ODict (Py.set "text" (VStr prompt_text) kvs))
                  (objects w1)) w1).
  exists workflow, w2. split.
  - unfold load_workflow.
    rewrite (bind_ok _ _ w w raw (read_text_ok _ _ _ Hraw)).
    rewrite Hload, (bind_ok _ _ w w1 workflow Hnew).
    rewrite (bind_ok _ _ w1 w1 nodo_6 (obj_getitem_field workflow "6" w1 _ Hf6)).
    rewrite (bind_ok _ _ w1 w1 (VRef l)
               (obj_getitem_field nodo_6 "inputs" w1 _ Hfin)).
    rewrite (bind_ok _ _ w1 w2 tt
               (obj_setitem_dict l "text" (VStr prompt_text) w1 kvs Hl)).
    reflexivity.
  - apply (text_read_back w1 workflow nodo_6 l kvs (VStr prompt_text));
      assumption.
Qed.

Lemma C3_prompt_written_into_node_6_witness :
  prompt_injected sample_loads "workflow.json" "a cat"
    (world_with_file text_workflow).
Proof.
  apply C3_prompt_written_into_node_6
    with (raw := text_workflow)
         (d := [("6", JObj [("inputs", JObj [("text", JStr "old"); ("seed", JInt 5)])])])
         (node := [("inputs", JObj [("text", JStr "old"); ("seed", JInt 5)])])
         (inputs := [("text", JStr "old"); ("seed", JInt 5)]);
    reflexivity.
Defined.

(** C3, as stated, fails: a workflow whose node "6" has no "inputs"
    contains key "6", and [load_workflow] raises [KeyError] on it. *)
Lemma C3_node_6_without_inputs :
  (exists w',
      load_workflow sample_loads "workflow.json" "a cat"
        (world_with_file text_bare_node)
      = Some (Error (KeyError (JStr "inputs")), w')) /\
  ~ (forall json_loads workflow_path prompt_text raw w d,
        Fs.read_text (Pathlib.Path workflow_path) (files w) = Ok raw ->
        json_loads raw = Some (JObj d) ->
        Py.has_key "6" d = true ->
        prompt_injected json_loads workflow_path prompt_text w).
Proof.
  split.
  - eexists. vm_compute. reflexivity.
  - intros H.
    destruct (H sample_loads "workflow.json" "a cat" text_bare_node
                (world_with_file text_bare_node) [("6", JObj [])]
                eq_refl eq_refl eq_refl) as (workflow & w' & Hrun & _).
    vm_compute in Hrun. discriminate Hrun.
Qed.



(* ================================================================== *)
(** * The job submitter *)







(* ================================================================== *)
(** * The output directory *)

Open Scope list_scope.

Lemma path_eqb_eq (p q : Pathlib.path) : Pathlib.eqb p q = true -> p = q.
Proof.
  unfold Pathlib.eqb. destruct p as [r ps], q as [r' ps']. simpl.
  destruct (String.eqb_spec r r') as [->|]; [|discriminate].
  destruct (list_eq_dec string_dec ps ps') as [->|]; [reflexivity|discriminate].
Qed.

Lemma lookup_cons (p q : Pathlib.path) (n : node) (f : fs) :
  Fs.lookup ((p, n) :: f) q = Fs.lookup f q \/
  (q = p /\ Fs.lookup ((p, n) :: f) q = Some n).
Proof.
  unfold Fs.lookup. destruct (Pathlib.parts q) eqn:E; [now left|]. simpl.
  destruct (Pathlib.eqb q p) eqn:Eq; [|now left].
  right. split; [now apply path_eqb_eq|reflexivity].
Qed.

Lemma parent_shorter (p : Pathlib.path) :
  Pathlib.parts p <> [] ->
  S (List.length (Pathlib.parts (Pathlib.parent p)))
  = List.length (Pathlib.parts p).
Proof.
  intros H. simpl. destruct (exists_last H) as (l & a & ->).
  rewrite removelast_last, length_app. simpl. lia.
Qed.

Lemma above_length (q p : Pathlib.path) :
  above q p ->
  List.length (Pathlib.parts q) <= List.length (Pathlib.parts p).
Proof.
  intros (k & ->). induction k as [|k IH]; simpl; [lia|].
  destruct (Pathlib.parts (Nat.iter k Pathlib.parent p)) as [|a l] eqn:E.
  - simpl. lia.
  - assert (H : Pathlib.parts (Nat.iter k Pathlib.parent p) <> [])
      by (rewrite E; discriminate).
    apply parent_shorter in H. simpl in H. rewrite E in *. simpl in *. lia.
Qed.

Lemma above_parent (q p : Pathlib.path) :
  above q (Pathlib.parent p) -> above q p.
Proof.
  intros (k & ->). exists (S k). clear. induction k as [|k IH]; simpl;
    [reflexivity|]. now rewrite IH.
Qed.

Lemma above_self (p : Pathlib.path) : above p p.
Proof. now exists 0. Qed.

(** [mkdir(parents=True, exist_ok=True)] succeeds when no regular file
    is in the way; it adds directories at [p] and above, nothing else. *)
Lemma mkdir_makes_directories (fuel : nat) :
  forall (p : Pathlib.path) (f : fs),
    List.length (Pathlib.parts p) <= fuel ->
    way_clear f p ->
    exists f',
      Fs.mkdir fuel p f = (Ok tt, f') /\
      Fs.is_dir f' p = true /\
      forall q, Fs.lookup f' q = Fs.lookup f q \/
                (above q p /\ Fs.lookup f' q = Some Dir).
Proof.
  induction fuel as [|fuel IH]; intros p f Hlen Hclear.
  - assert (Hp : Pathlib.parts p = []) by (destruct (Pathlib.parts p); [easy|simpl in Hlen; lia]).
    exists f. unfold Fs.mkdir, Fs.os_mkdir, Fs.is_dir, Fs.lookup. rewrite Hp.
    repeat split. now left.
  - cbn [Fs.mkdir]. unfold Fs.os_mkdir.
    destruct (Fs.lookup f p) as [[|c]|] eqn:Elook.
    + exists f. unfold Fs.is_dir. rewrite Elook. repeat split. now left.
    + exfalso. now apply (Hclear p c (above_self p)).
    + assert (Hp : Pathlib.parts p <> []).
      { intros E. unfold Fs.lookup in Elook. now rewrite E in Elook. }
      destruct (Fs.lookup f (Pathlib.parent p)) as [[|c]|] eqn:Epar.
      * exists ((p, Dir) :: f). split; [reflexivity|]. split.
        -- unfold Fs.is_dir. now rewrite lookup_fresh.
        -- intros q. destruct (lookup_cons p q Dir f) as [H|[-> H]];
             [now left|right]. split; [apply above_self|exact H].
      * exfalso. apply (Hclear (Pathlib.parent p) c); [|exact Epar].
        now exists 1.
      * assert (Hne : Pathlib.eqb (Pathlib.parent p) p = false).
        { destruct (Pathlib.eqb (Pathlib.parent p) p) eqn:E; [|reflexivity].
          apply path_eqb_eq in E. apply parent_shorter in Hp.
          rewrite E in Hp. lia. }
        rewrite Hne.
        destruct (IH (Pathlib.parent p) f) as (f2 & Hmk & Hdir & Hframe).
        { apply parent_shorter in Hp. lia. }
        { intros q c Hq. apply Hclear. now apply above_parent. }
        rewrite Hmk.
        unfold Fs.is_dir in Hdir.
        destruct (Fs.lookup f2 (Pathlib.parent p)) as [[|c]|] eqn:Epar2;
          try discriminate Hdir.
        destruct (Hframe p) as [Hsame|[_ Hnew]].
        -- rewrite Hsame, Elook.
           exists ((p, Dir) :: f2). split; [reflexivity|]. split.
           ++ unfold Fs.is_dir. now rewrite lookup_fresh.
           ++ intros q. destruct (lookup_cons p q Dir f2) as [H|[-> H]].
              ** rewrite H. destruct (Hframe q) as [H'|[Ha H']]; [now left|].
                 right. split; [now apply above_parent|exact H'].
              ** right. split; [apply above_self|exact H].
        -- rewrite Hnew. unfold Fs.is_dir. rewrite Hnew.
           exists f2. split; [reflexivity|].
           split; [unfold Fs.is_dir; now rewrite Hnew|].
           intros q. destruct (Hframe q) as [H'|[Ha H']]; [now left|].
           right. split; [now apply above_parent|exact H'].
Qed.

Lemma write_chunks_complete (p : Pathlib.path) (cs : list string) (w : world) :
  exists w', write_chunks p cs true w = Some (Ok tt, w').
Proof.
  revert w. induction cs as [|c cs IH]; intros w; simpl; [now eexists|].
  unfold bind at 1. unfold write, on_files.
  apply IH.
Qed.

Ltac world_fields :=
  cbn [objects files replies clock entropy calls
       with_objects with_files with_replies with_clock with_entropy log].

(** [_download_image] returns when the server answers with a complete
    body and a status under 400 or over 599, no regular file is in the
    way of the output directory and the name drawn is free. *)
Theorem download_image_returns :
  forall filename subfolder host save_dir w r rest rnd more,
    replies w = Answer r :: rest ->
    (400 <=? status_code r)%Z && (status_code r <? 600)%Z = false ->
    stream_complete r = true ->
    entropy w = rnd :: more ->
    way_clear (files w) save_dir ->
    Fs.lookup (files w)
      (Pathlib.joinpath save_dir (Uuid.hex rnd ++ extension_of filename)%string)
    = None ->
    exists w',
      _download_image filename subfolder host save_dir w
      = Some (Ok (Pathlib.joinpath save_dir
                    (Uuid.hex rnd ++ extension_of filename)%string), w').
Proof.
  intros filename subfolder host save_dir w r rest rnd more
    Hrep Hst Hcomplete Hent Hclear Hfree.
  set (p := Pathlib.joinpath save_dir (Uuid.hex rnd ++ extension_of filename)%string)
    in *.
  destruct (local_path_shape save_dir rnd filename) as (Eshape & Epar & _ & _).
  fold p in Eshape, Epar.
  destruct (mkdir_makes_directories (List.length (Pathlib.parts save_dir))
              save_dir (files w) (le_n _) Hclear) as (f1 & Hmk & Hdir & Hframe).
  assert (Hp1 : Fs.lookup f1 p = None).
  { destruct (Hframe p) as [H|[Ha _]]; [now rewrite H|].
    apply above_length in Ha. rewrite Eshape in Ha. simpl in Ha.
    rewrite length_app in Ha. simpl in Ha. lia. }
  unfold _download_image.
  unfold bind at 1. unfold requests_get. rewrite Hrep.
  unfold bind at 1. unfold raise_for_status. rewrite Hst. cbn [ret].
  unfold bind at 1. unfold mkdir, on_files. world_fields.
  rewrite Hmk.
  unfold bind at 1. unfold uuid4_hex. world_fields. rewrite Hent.
  fold (extension_of filename). fold p.
  unfold bind at 1. unfold open_wb, on_files, Fs.open_wb.
  world_fields. rewrite Hp1, Epar.
  unfold Fs.is_dir in Hdir.
  destruct (Fs.lookup f1 save_dir) as [[|c]|]; try discriminate Hdir.
  rewrite Hcomplete.
  match goal with
  | |- context [bind (write_chunks p (chunks r) true) ?k ?w0] =>
      destruct (write_chunks_complete p (chunks r) w0) as (w' & Hw);
      rewrite (bind_ok _ k w0 w' tt Hw)
  end.
  now exists w'.
Qed.

(* ================================================================== *)
(** * A complete run *)

(** [generar] end to end: the prompt goes out inside the workflow, the
    poller sleeps twice, the image of node "10" is fetched and saved
    under the output directory. *)
Lemma generar_run :
  exists w',
    generar sample_loads "workflow.json" "a cat" "http://localhost:8188/"
      "./outputs" 2 300 world_for_generar
    = Some (Ok (Pathlib.mkPath ""
                  ["outputs"; "000000000000400080000000000007e8.png"]), w') /\
    calls w'
    = [POST "http://localhost:8188/prompt"
         (JObj [("prompt",
                 JObj [("6", JObj [("inputs",
                                    JObj [("text", JStr "a cat");
                                          ("seed", JInt 5)])])])])
         30;
       GET "http://localhost:8188/history/abc" false 30; SLEEP 2;
       GET "http://localhost:8188/history/abc" false 30; SLEEP 2;
       GET "http://localhost:8188/history/abc" false 30;
       GET "http://localhost:8188/view?filename=ten.png&type=output&subfolder="
         true 120] /\
    Fs.lookup (files w')
      (Pathlib.mkPath "" ["outputs"; "000000000000400080000000000007e8.png"])
    = Some (File "PNGdata").
Proof.
  eexists. split; [vm_compute; reflexivity|]. split; reflexivity.
Qed.

(* ================================================================== *)
(** * More on the result selector *)




(** X2. What the selected node must hold: a node that is no object raises
    [TypeError], one without "images" raises [KeyError] for "images",
    and a last image without "filename" raises [KeyError] for
    "filename". *)
Theorem pick_last_image_missing_members :
  forall h d k node,
    Py.lookup "outputs" h = Some (JObj d) ->
    last_node (JObj d) = Ok k ->
    Py.lookup k d = Some node ->
    (is_object node = false ->
     _pick_last_image (JObj h) = Error TypeError) /\
    (forall n,
        node = JObj n -> Py.lookup "images" n = None ->
        _pick_last_image (JObj h) = Error (KeyError (JStr "images"))) /\
    (forall n before entry,
        node = JObj n ->
        Py.lookup "images" n = Some (JArr (before ++ [JObj entry])) ->
        Py.lookup "filename" entry = None ->
        _pick_last_image (JObj h) = Error (KeyError (JStr "filename"))).
Proof.
  intros h d k node Hout Hk Hnode.
  rewrite (pick_outputs _ _ _ _ Hout Hk Hnode). repeat split.
  - intros Hobj. now destruct node.
  - intros n -> Himg. unfold last_image_of, Py.getitem. now rewrite Himg.
  - intros n before entry -> Himg Hfile.
    unfold last_image_of, Py.getitem at 1. rewrite Himg. cbn [bindR].
    assert (Ht : Py.truthy (JArr (before ++ [JObj entry])) = true)
      by (simpl; now destruct before).
    rewrite Ht. cbn [negb].
    unfold Py.index_last, Py.list_last. rewrite rev_unit. cbn [bindR].
    unfold Py.getitem. now rewrite Hfile.
Qed.

Lemma pick_last_image_missing_members_witness :
  _pick_last_image (JObj [("outputs", JObj outputs_with_list_node)])
  = Error TypeError /\
  _pick_last_image (JObj [("outputs", JObj outputs_without_images)])
  = Error (KeyError (JStr "images")) /\
  _pick_last_image (JObj [("outputs", JObj outputs_without_filename)])
  = Error (KeyError (JStr "filename")).
Proof.
  split; [|split].
  - apply (proj1 (pick_last_image_missing_members
                    [("outputs", JObj outputs_with_list_node)]
                    outputs_with_list_node "3" (JArr [image "three.png"])
                    eq_refl eq_refl eq_refl)).
    reflexivity.
  - apply (proj1 (proj2 (pick_last_image_missing_members
                    [("outputs", JObj outputs_without_images)]
                    outputs_without_images "12" (JObj [("text", JStr "done")])
                    eq_refl eq_refl eq_refl))
             [("text", JStr "done")]); reflexivity.
  - apply (proj2 (proj2 (pick_last_image_missing_members
                    [("outputs", JObj outputs_without_filename)]
                    outputs_without_filename "3"
                    (node_with [image "three.png"; JObj [("subfolder", JStr "tmp")]])
                    eq_refl eq_refl eq_refl))
             [("images", JArr [image "three.png"; JObj [("subfolder", JStr "tmp")]])]
             [image "three.png"] [("subfolder", JStr "tmp")]); reflexivity.
Defined.

(* ================================================================== *)
(** * Keys of equal value, and keys that are not plain digits *)








(* ================================================================== *)
(** * More on the completion poller *)

Lemma wait_loop_failure (n : nat) (prompt_id url : string) (poll : Q)
  (timeout : Z) (t0 : Q) (w : world) (rp : reply) (rest : list reply)
  (e : request_error) :
  replies w = rp :: rest ->
  failure_of rp = Some e ->
  wait_loop (S n) prompt_id url poll timeout t0 w
  = Some (Error (RequestException e),
          with_replies rest (log (GET url false 30) w)).
Proof.
  intros Hr Hf. cbn [wait_loop]. unfold bind at 1. unfold requests_get.
  rewrite Hr. destruct rp as [|r].
  - injection Hf as <-. reflexivity.
  - unfold failure_of in Hf. unfold bind at 1. unfold raise_for_status.
    destruct ((400 <=? status_code r)%Z && (status_code r <? 600)%Z).
    + injection Hf as <-. reflexivity.
    + unfold ret at 1. unfold bind at 1. unfold response_json.
      destruct (json_body r); [discriminate Hf|]. injection Hf as <-.
      reflexivity.
Qed.

(** The polls that found the job pending, then the loop at the next
    reply. *)
Lemma wait_until_done_polls (prompt_id host : string) (poll : Q) (timeout : Z)
  (w : world) (t0 : Q) (ts later : list Q) (rs : list response)
  (rp : reply) (rest : list reply) :
  (0 <= poll)%Q ->
  clock w = t0 :: ts ++ later ->
  replies w = map Answer rs ++ rp :: rest ->
  List.length ts = List.length rs ->
  Forall (pending_answer prompt_id) rs ->
  Forall (in_time timeout t0) ts ->
  _wait_until_done prompt_id host poll timeout w
  = wait_loop (S (S (List.length rest))) prompt_id
      (history_url host prompt_id) poll timeout t0
      (mkWorld (objects w) (files w) (rp :: rest) later (entropy w)
         (calls w ++ retries (history_url host prompt_id) poll (List.length rs))).
Proof.
  intros Hpoll Hclk Hrep Hlen Hrs Hts.
  apply Qle_bool_iff in Hpoll.
  rewrite (wait_until_done_start _ _ _ _ _ _ _ Hclk).
  rewrite Hrep, length_app, length_map. simpl List.length.
  replace (S (List.length rs + S (List.length rest)))
    with (List.length rs + S (S (List.length rest)))%nat by lia.
  now rewrite (wait_loop_retries prompt_id (history_url host prompt_id) poll
                 timeout t0 rs ts _ (with_clock (ts ++ later) w)
                 (rp :: rest) later Hpoll Hlen Hrs Hts Hrep eq_refl).
Qed.

(** X4. A request of the poller that fails is not tried again: after any
    number of polls that found the job pending, a reply that does not
    come, comes with a 4xx or 5xx status, or is not JSON ends the poller
    with that exception, with no sleep after it and no later reply
    read. *)
Theorem wait_until_done_failed_request_not_retried :
  forall prompt_id host poll timeout w t0 ts later rs rp rest e,
    (0 <= poll)%Q ->
    clock w = t0 :: ts ++ later ->
    replies w = map Answer rs ++ rp :: rest ->
    List.length ts = List.length rs ->
    Forall (pending_answer prompt_id) rs ->
    Forall (in_time timeout t0) ts ->
    failure_of rp = Some e ->
    _wait_until_done prompt_id host poll timeout w
    = Some (Error (RequestException e),
            after_polls w (history_url host prompt_id) poll (List.length rs)
              rest later).
Proof.
  intros prompt_id host poll timeout w t0 ts later rs rp rest e
    Hpoll Hclk Hrep Hlen Hrs Hts Hf.
  rewrite (wait_until_done_polls _ _ _ _ _ _ _ _ _ _ _
             Hpoll Hclk Hrep Hlen Hrs Hts).
  erewrite wait_loop_failure; [|reflexivity|exact Hf].
  unfold after_polls, with_replies, log. cbn. now rewrite <- app_assoc.
Qed.

Lemma wait_until_done_failed_request_not_retried_witness :
  _wait_until_done "abc" "http://localhost:8188/" 2 300
    (world_polls [Answer reply_empty; Answer reply_server_error;
                  Answer reply_done] [10; 11; 13]%Q)
  = Some (Error (RequestException (HTTPError 503)),
          mkWorld [] [] [Answer reply_done] [13%Q] []
            [GET "http://localhost:8188/history/abc" false 30; SLEEP 2;
             GET "http://localhost:8188/history/abc" false 30]) /\
  _wait_until_done "abc" "http://localhost:8188/" 2 300
    (world_polls [Unreachable; Answer reply_done] [10; 11]%Q)
  = Some (Error (RequestException ConnectionFailure),
          mkWorld [] [] [Answer reply_done] [11%Q] []
            [GET "http://localhost:8188/history/abc" false 30]) /\
  _wait_until_done "abc" "http://localhost:8188/" 2 300
    (world_polls [Answer reply_not_json] [10]%Q)
  = Some (Error (RequestException BodyNotJSON),
          mkWorld [] [] [] [] []
            [GET "http://localhost:8188/history/abc" false 30]).
Proof.
  split; [|split].
  - apply (wait_until_done_failed_request_not_retried "abc"
             "http://localhost:8188/" 2 300
             (world_polls [Answer reply_empty; Answer reply_server_error;
                           Answer reply_done] [10; 11; 13]%Q)
             10%Q [11%Q] [13%Q] [reply_empty] (Answer reply_server_error)
             [Answer reply_done] (HTTPError 503)).
    + discriminate.
    + reflexivity.
    + reflexivity.
    + reflexivity.
    + repeat constructor. apply reply_empty_pending.
    + repeat constructor. unfold in_time, Qle; simpl; lia.
    + reflexivity.
  - apply (wait_until_done_failed_request_not_retried "abc"
             "http://localhost:8188/" 2 300
             (world_polls [Unreachable; Answer reply_done] [10; 11]%Q)
             10%Q [] [11%Q] [] Unreachable [Answer reply_done]
             ConnectionFailure).
    + discriminate.
    + reflexivity.
    + reflexivity.
    + reflexivity.
    + constructor.
    + constructor.
    + reflexivity.
  - apply (wait_until_done_failed_request_not_retried "abc"
             "http://localhost:8188/" 2 300
             (world_polls [Answer reply_not_json] [10]%Q)
             10%Q [] [] [] (Answer reply_not_json) [] BodyNotJSON).
    + discriminate.
    + reflexivity.
    + reflexivity.
    + reflexivity.
    + constructor.
    + constructor.
    + reflexivity.
Defined.



(** X6. A history in which the record of the job, or its status, is not an
    object ends the poller with [AttributeError] (raised by [.get]) at
    that poll: no sleep follows and no later reply is read. *)
Theorem wait_until_done_malformed_record :
  forall prompt_id host poll timeout w t0 ts later rs r rest items data,
    (0 <= poll)%Q ->
    clock w = t0 :: ts ++ later ->
    replies w = map Answer rs ++ Answer r :: rest ->
    List.length ts = List.length rs ->
    Forall (pending_answer prompt_id) rs ->
    Forall (in_time timeout t0) ts ->
    answers r (JObj items) ->
    Py.lookup prompt_id items = Some data ->
    (is_object data = false \/
     exists d st, data = JObj d /\ Py.lookup "status" d = Some st /\
                  is_object st = false) ->
    _wait_until_done prompt_id host poll timeout w
    = Some (Error AttributeError,
            after_polls w (history_url host prompt_id) poll (List.length rs)
              rest later).
Proof.
  intros prompt_id host poll timeout w t0 ts later rs r rest items data
    Hpoll Hclk Hrep Hlen Hrs Hts Hans Hl Hbad.
  rewrite (wait_until_done_polls _ _ _ _ _ _ _ _ _ _ _
             Hpoll Hclk Hrep Hlen Hrs Hts).
  erewrite wait_loop_step; [|reflexivity|exact Hans]. cbv zeta.
  assert (Ex : examine prompt_id (JObj items) = Error AttributeError).
  { rewrite examine_object, Hl.
    destruct Hbad as [Hd|(d & st & -> & Hs & Hst)].
    - now destruct data.
    - unfold Py.get at 1. rewrite Hs. cbn [bindR]. now destruct st. }
  rewrite Ex. unfold after_polls, with_replies, log. cbn.
  now rewrite <- app_assoc.
Qed.

Lemma wait_until_done_malformed_record_witness :
  _wait_until_done "abc" "http://localhost:8188/" 2 300
    (world_polls [Answer reply_empty; Answer reply_record_string;
                  Answer reply_done] [10; 12; 14]%Q)
  = Some (Error AttributeError,
          mkWorld [] [] [Answer reply_done] [14%Q] []
            [GET "http://localhost:8188/history/abc" false 30; SLEEP 2;
             GET "http://localhost:8188/history/abc" false 30]) /\
  _wait_until_done "abc" "http://localhost:8188/" 2 300
    (world_polls [Answer reply_status_string] [10]%Q)
  = Some (Error AttributeError,
          mkWorld [] [] [] [] []
            [GET "http://localhost:8188/history/abc" false 30]).
Proof.
  split.
  - apply (wait_until_done_malformed_record "abc" "http://localhost:8188/"
             2 300
             (world_polls [Answer reply_empty; Answer reply_record_string;
                           Answer reply_done] [10; 12; 14]%Q)
             10%Q [12%Q] [14%Q] [reply_empty] reply_record_string
             [Answer reply_done] [("abc", JStr "queued")] (JStr "queued")).
    + discriminate.
    + reflexivity.
    + reflexivity.
    + reflexivity.
    + repeat constructor. apply reply_empty_pending.
    + repeat constructor. unfold in_time, Qle; simpl; lia.
    + split; reflexivity.
    + reflexivity.
    + left. reflexivity.
  - apply (wait_until_done_malformed_record "abc" "http://localhost:8188/"
             2 300 (world_polls [Answer reply_status_string] [10]%Q)
             10%Q [] [] [] reply_status_string []
             [("abc", JObj [("status", JStr "running")])]
             (JObj [("status", JStr "running")])).
    + discriminate.
    + reflexivity.
    + reflexivity.
    + reflexivity.
    + constructor.
    + constructor.
    + split; reflexivity.
    + reflexivity.
    + right. exists [("status", JStr "running")], (JStr "running").
      repeat split.
Defined.

(** X7. With a negative poll interval the poller still returns a job that
    is done at the first poll; otherwise the first poll that finds the
    job pending, in time, ends in the [ValueError] of [time.sleep],
    after one request and no pause. *)
Theorem wait_until_done_negative_poll :
  forall prompt_id host poll timeout w t0 r rest,
    (poll < 0)%Q ->
    replies w = Answer r :: rest ->
    (forall later data,
        clock w = t0 :: later ->
        done_answer prompt_id r data ->
        _wait_until_done prompt_id host poll timeout w
        = Some (Ok data,
                after_polls w (history_url host prompt_id) poll 0 rest later)) /\
    (forall now later,
        clock w = t0 :: now :: later ->
        pending_answer prompt_id r ->
        in_time timeout t0 now ->
        _wait_until_done prompt_id host poll timeout w
        = Some (Error (ValueError NegativeSleepLength),
                after_polls w (history_url host prompt_id) poll 0 rest later)).
Proof.
  intros prompt_id host poll timeout w t0 r rest Hpoll Hrep. split.
  - intros later data Hclk (hist & Hans & Hdone).
    rewrite (wait_until_done_start _ _ _ _ _ _ _ Hclk).
    erewrite wait_loop_step; [|exact Hrep|exact Hans]. cbv zeta.
    apply examine_done in Hdone. rewrite Hdone.
    unfold after_polls, with_replies, with_clock, log. now cbn.
  - intros now later Hclk (hist & Hans & Hpend) Hin.
    rewrite (wait_until_done_start _ _ _ _ _ _ _ Hclk).
    erewrite wait_loop_step; [|exact Hrep|exact Hans]. cbv zeta.
    destruct (examine_pending _ _ Hpend) as (v & -> & Hv).
    apply Qlt_bool_false in Hin.
    assert (Hneg : Qle_bool 0 poll = false).
    { destruct (Qle_bool 0 poll) eqn:E; [|reflexivity].
      apply Qle_bool_iff in E. apply Qlt_not_le in Hpoll. contradiction. }
    destruct v; [| |discriminate Hv];
      unfold bind, time_time, with_replies, with_clock, log; cbn [clock];
      rewrite Hin; unfold time_sleep; rewrite Hneg; now cbn.
Qed.

Lemma wait_until_done_negative_poll_witness :
  _wait_until_done "abc" "http://localhost:8188/" (-1) 300
    (world_polls [Answer reply_done] [10; 11]%Q)
  = Some (Ok (status_of true),
          mkWorld [] [] [] [11%Q] []
            [GET "http://localhost:8188/history/abc" false 30]) /\
  _wait_until_done "abc" "http://localhost:8188/" (-1) 300
    (world_polls [Answer reply_running; Answer reply_done] [10; 11; 12]%Q)
  = Some (Error (ValueError NegativeSleepLength),
          mkWorld [] [] [Answer reply_done] [12%Q] []
            [GET "http://localhost:8188/history/abc" false 30]).
Proof.
  split.
  - refine (proj1 (wait_until_done_negative_poll "abc"
             "http://localhost:8188/" (-1) 300
             (world_polls [Answer reply_done] [10; 11]%Q)
             10%Q reply_done [] _ eq_refl) [11%Q] (status_of true) eq_refl _).
    + unfold Qlt; simpl; lia.
    + apply reply_done_done.
  - refine (proj2 (wait_until_done_negative_poll "abc"
             "http://localhost:8188/" (-1) 300
             (world_polls [Answer reply_running; Answer reply_done]
                [10; 11; 12]%Q)
             10%Q reply_running [Answer reply_done] _ eq_refl)
             11%Q [12%Q] eq_refl _ _).
    + unfold Qlt; simpl; lia.
    + apply reply_running_pending.
    + unfold in_time, Qle; simpl; lia.
Defined.

(** ** The trace of any run *)

Lemma wait_loop_trace (prompt_id url : string) (poll : Q) (timeout : Z)
  (t0 : Q) (n : nat) :
  forall (w w' : world) (res : result json),
    wait_loop n prompt_id url poll timeout t0 w = Some (res, w') ->
    exists k used_replies used_times,
      calls w' = calls w ++ retries url poll k ++ [GET url false 30] /\
      replies w = used_replies ++ replies w' /\
      List.length used_replies = S k /\
      clock w = used_times ++ clock w' /\
      (k <= List.length used_times <= S k)%nat /\
      objects w' = objects w /\ files w' = files w /\ entropy w' = entropy w.
Proof.
  induction n as [|n IH]; intros w w' res H; [discriminate H|].
  destruct (replies w) as [|rp rest] eqn:Hr.
  - cbn [wait_loop] in H. unfold bind at 1 in H. unfold requests_get in H.
    rewrite Hr in H. discriminate H.
  - destruct (failure_of rp) as [e|] eqn:Hf.
    + rewrite (wait_loop_failure _ _ _ _ _ _ _ _ _ _ Hr Hf) in H.
      injection H as <- <-. exists 0%nat, [rp], []. simpl.
      repeat split; lia.
    + destruct rp as [|r]; [discriminate Hf|]. unfold failure_of in Hf.
      destruct ((400 <=? status_code r)%Z && (status_code r <? 600)%Z) eqn:Hst;
        [discriminate Hf|].
      destruct (json_body r) as [hist|] eqn:Hj; [|discriminate Hf].
      assert (Hans : answers r hist) by now split.
      rewrite (wait_loop_step _ _ _ _ _ _ _ _ _ _ Hr Hans) in H. cbv zeta in H.
      assert (Hpend : forall v,
        (now <- time_time ;;
         if Qlt_bool (inject_Z timeout) (now - t0)
         then raise (TimeoutError (timeout_error_of v prompt_id timeout))
         else time_sleep poll ;; wait_loop n prompt_id url poll timeout t0)
          (with_replies rest (log (GET url false 30) w)) = Some (res, w') ->
        exists k used_replies used_times,
          calls w' = calls w ++ retries url poll k ++ [GET url false 30] /\
          Answer r :: rest = used_replies ++ replies w' /\
          List.length used_replies = S k /\
          clock w = used_times ++ clock w' /\
          (k <= List.length used_times <= S k)%nat /\
          objects w' = objects w /\ files w' = files w /\
          entropy w' = entropy w).
      { intros v H'. unfold bind at 1 in H'. unfold time_time in H'.
        simpl clock in H'. destruct (clock w) as [|now later] eqn:Hc;
          [discriminate H'|].
        destruct (Qlt_bool (inject_Z timeout) (now - t0)).
        - injection H' as <- <-. exists 0%nat, [Answer r], [now]. simpl.
          repeat split; lia.
        - unfold bind, time_sleep in H'.
          destruct (Qle_bool 0 poll).
          + apply IH in H'
              as (k & ur & ut & Hcalls & Hrep & Hlen & Hclk & Hk & Ho & Hfi & He).
            simpl in Hcalls, Hrep, Hclk, Ho, Hfi, He.
            exists (S k), (Answer r :: ur), (now :: ut). simpl.
            split; [rewrite Hcalls; now rewrite <- !app_assoc|].
            split; [now rewrite Hrep|].
            split; [now rewrite Hlen|].
            split; [now rewrite Hclk|].
            split; [lia|]. now repeat split.
          + injection H' as <- <-. exists 0%nat, [Answer r], [now]. simpl.
            repeat split; lia. }
      destruct (examine prompt_id hist) as [[| |data]|e].
      * now apply (Hpend Absent).
      * now apply (Hpend Unfinished).
      * injection H as <- <-. exists 0%nat, [Answer r], []. simpl.
        repeat split; lia.
      * injection H as <- <-. exists 0%nat, [Answer r], []. simpl.
        repeat split; lia.
Qed.


(** X8. Every run of the poller that ends, with a result or with any
    exception, has made these calls and no other: some number [k] of
    pairs of a GET of the history URL (not streamed, timeout 30) and a
    sleep of the poll interval, then one last GET.  It has read one
    reply for each GET, the time once at the start and then [k] or
    [k + 1] times, and it has left the files, the stored objects and the
    random source as they were. *)
Theorem wait_until_done_trace :
  forall prompt_id host poll timeout w res w',
    _wait_until_done prompt_id host poll timeout w = Some (res, w') ->
    exists k used_replies t0 used_times,
      calls w'
      = calls w ++ retries (history_url host prompt_id) poll k
          ++ [GET (history_url host prompt_id) false 30] /\
      replies w = used_replies ++ replies w' /\
      List.length used_replies = S k /\
      clock w = t0 :: used_times ++ clock w' /\
      (k <= List.length used_times <= S k)%nat /\
      files w' = files w /\ objects w' = objects w /\ entropy w' = entropy w.
Proof.
  intros prompt_id host poll timeout w res w' H.
  destruct (clock w) as [|t0 later] eqn:Hclk.
  - unfold _wait_until_done, bind, time_time in H. rewrite Hclk in H.
    discriminate H.
  - rewrite (wait_until_done_start _ _ _ _ _ _ _ Hclk) in H.
    apply wait_loop_trace in H
      as (k & ur & ut & Hcalls & Hrep & Hlen & Hc & Hk & Ho & Hfi & He).
    simpl in Hcalls, Hrep, Hc, Ho, Hfi, He.
    exists k, ur, t0, ut. rewrite Hc. now repeat split.
Qed.

Lemma wait_until_done_trace_witness :
  exists k used_replies t0 used_times,
    calls world_after_third_poll
    = calls world_done_at_third_poll
        ++ retries (history_url "http://localhost:8188/" "abc") 2 k
        ++ [GET (history_url "http://localhost:8188/" "abc") false 30] /\
    replies world_done_at_third_poll
    = used_replies ++ replies world_after_third_poll /\
    List.length used_replies = S k /\
    clock world_done_at_third_poll
    = t0 :: used_times ++ clock world_after_third_poll /\
    (k <= List.length used_times <= S k)%nat /\
    files world_after_third_poll = files world_done_at_third_poll /\
    objects world_after_third_poll = objects world_done_at_third_poll /\
    entropy world_after_third_poll = entropy world_done_at_third_poll.
Proof.
  apply (wait_until_done_trace "abc" "http://localhost:8188/" 2 300
           world_done_at_third_poll (Ok (status_of true))
           world_after_third_poll).
  vm_compute. reflexivity.
Defined.

(* ================================================================== *)
(** * More on the job submitter *)




(* ================================================================== *)
(** * More on the result fetcher *)









Lemma download_image_mkdir_error (filename subfolder host : string)
  (save_dir : Pathlib.path) (w : world) (r : response) (rest : list reply)
  (e : exn) (f1 : fs) :
  replies w = Answer r :: rest ->
  (400 <=? status_code r)%Z && (status_code r <? 600)%Z = false ->
  Fs.mkdir (List.length (Pathlib.parts save_dir)) save_dir (files w)
  = (Error e, f1) ->
  _download_image filename subfolder host save_dir w
  = Some (Error e,
          with_files f1
            (with_replies rest
               (log (GET (view_url host filename subfolder) true 120) w))).
Proof.
  intros Hrep Hst Hmk.
  unfold _download_image. fold (view_url host filename subfolder).
  unfold bind at 1. unfold requests_get. rewrite Hrep.
  unfold bind at 1. unfold raise_for_status. rewrite Hst. cbn [ret].
  unfold bind at 1. unfold mkdir, on_files. world_fields.
  now rewrite Hmk.
Qed.

(** X11. A regular file where the output directory should be, or where its
    parent should be, makes [_download_image] raise the [OSError] of
    [mkdir] after the request: [FileExistsError] in the first case,
    [NotADirectoryError] in the second.  No name is drawn and the files
    stay as they were. *)
Theorem download_image_blocked :
  forall filename subfolder host save_dir w r rest c,
    replies w = Answer r :: rest ->
    (400 <=? status_code r)%Z && (status_code r <? 600)%Z = false ->
    (Fs.lookup (files w) save_dir = Some (File c) ->
     exists w',
       _download_image filename subfolder host save_dir w
       = Some (Error (OSError FileExistsError), w') /\
       files w' = files w /\ entropy w' = entropy w /\
       calls w' = calls w ++ [GET (view_url host filename subfolder) true 120]) /\
    (Fs.lookup (files w) save_dir = None ->
     Fs.lookup (files w) (Pathlib.parent save_dir) = Some (File c) ->
     exists w',
       _download_image filename subfolder host save_dir w
       = Some (Error (OSError NotADirectoryError), w') /\
       files w' = files w /\ entropy w' = entropy w /\
       calls w' = calls w ++ [GET (view_url host filename subfolder) true 120]).
Proof.
  intros filename subfolder host save_dir w r rest c Hrep Hst.
  split.
  - intros Hfile.
    assert (Hmk : Fs.mkdir (List.length (Pathlib.parts save_dir)) save_dir
                    (files w) = (Error (OSError FileExistsError), files w)).
    { destruct (List.length (Pathlib.parts save_dir)); cbn [Fs.mkdir];
        unfold Fs.os_mkdir; rewrite Hfile; unfold Fs.is_dir; now rewrite Hfile. }
    rewrite (download_image_mkdir_error _ _ _ _ _ _ _ _ _ Hrep Hst Hmk).
    eexists. split; [reflexivity|]. now repeat split.
  - intros Hnone Hpar.
    assert (Hmk : Fs.mkdir (List.length (Pathlib.parts save_dir)) save_dir
                    (files w) = (Error (OSError NotADirectoryError), files w)).
    { destruct (List.length (Pathlib.parts save_dir)); cbn [Fs.mkdir];
        unfold Fs.os_mkdir; rewrite Hnone, Hpar; unfold Fs.is_dir;
        now rewrite Hnone. }
    rewrite (download_image_mkdir_error _ _ _ _ _ _ _ _ _ Hrep Hst Hmk).
    eexists. split; [reflexivity|]. now repeat split.
Qed.

Lemma download_image_blocked_witness :
  (exists w',
      _download_image "photo.jpg" "" "http://localhost:8188"
        (Pathlib.Path "outputs") world_file_in_the_way
      = Some (Error (OSError FileExistsError), w') /\
      files w' = files world_file_in_the_way /\
      entropy w' = entropy world_file_in_the_way /\
      calls w'
      = calls world_file_in_the_way
          ++ [GET (view_url "http://localhost:8188" "photo.jpg" "") true 120]) /\
  (exists w',
      _download_image "photo.jpg" "" "http://localhost:8188"
        (Pathlib.Path "outputs/img") world_file_in_the_way
      = Some (Error (OSError NotADirectoryError), w') /\
      files w' = files world_file_in_the_way /\
      entropy w' = entropy world_file_in_the_way /\
      calls w'
      = calls world_file_in_the_way
          ++ [GET (view_url "http://localhost:8188" "photo.jpg" "") true 120]).
Proof.
  split.
  - apply (proj1 (download_image_blocked "photo.jpg" "" "http://localhost:8188"
                    (Pathlib.Path "outputs") world_file_in_the_way
                    (mkResponse 200 None ["PNG"; "data"] true) [] "notes"
                    eq_refl eq_refl)).
    reflexivity.
  - apply (proj2 (download_image_blocked "photo.jpg" "" "http://localhost:8188"
                    (Pathlib.Path "outputs/img") world_file_in_the_way
                    (mkResponse 200 None ["PNG"; "data"] true) [] "notes"
                    eq_refl eq_refl)).
    + reflexivity.
    + reflexivity.
Defined.








(* ================================================================== *)
(** * The host *)

Lemma rstrip_by_dropped (p : ascii -> bool) (a : ascii) (s : string) :
  p a = true ->
  Str.rstrip_by p (s ++ String a "")%string = Str.rstrip_by p s.
Proof.
  intros Ha. induction s as [|x s IH]; simpl.
  - now rewrite Ha.
  - now rewrite IH.
Qed.

Lemma rstrip_slash (host : string) :
  Str.rstrip "/" (host ++ "/")%string = Str.rstrip "/" host.
Proof. unfold Str.rstrip. now apply rstrip_by_dropped. Qed.

Lemma bind_ext {A B : Type} (m m' : M A) (k k' : A -> M B) (w : world) :
  m w = m' w ->
  (forall a w1, k a w1 = k' a w1) -> bind m k w = bind m' k' w.
Proof.
  intros Hm H. unfold bind. rewrite Hm.
  destruct (m' w) as [[[a|e] w1]|]; [apply H|easy..].
Qed.

(** X13. A slash at the end of the host changes nothing: every function that
    builds a URL, and [generar] with them, does the same with
    [host ++ "/"] as with [host]. *)
Theorem trailing_slash_of_host_ignored :
  forall host,
    (forall workflow w,
        _post_prompt workflow (host ++ "/") w = _post_prompt workflow host w) /\
    (forall prompt_id poll timeout w,
        _wait_until_done prompt_id (host ++ "/") poll timeout w
        = _wait_until_done prompt_id host poll timeout w) /\
    (forall filename subfolder save_dir w,
        _download_image filename subfolder (host ++ "/") save_dir w
        = _download_image filename subfolder host save_dir w) /\
    (forall json_loads workflow_path prompt_text out_dir poll timeout w,
        generar json_loads workflow_path prompt_text (host ++ "/") out_dir
          poll timeout w
        = generar json_loads workflow_path prompt_text host out_dir
            poll timeout w).
Proof.
  intros host.
  assert (H1 : forall workflow w,
    _post_prompt workflow (host ++ "/") w = _post_prompt workflow host w).
  { intros workflow w. unfold _post_prompt. now rewrite rstrip_slash. }
  assert (H2 : forall prompt_id poll timeout w,
    _wait_until_done prompt_id (host ++ "/") poll timeout w
    = _wait_until_done prompt_id host poll timeout w).
  { intros prompt_id poll timeout w. unfold _wait_until_done.
    now rewrite rstrip_slash. }
  assert (H3 : forall filename subfolder save_dir w,
    _download_image filename subfolder (host ++ "/") save_dir w
    = _download_image filename subfolder host save_dir w).
  { intros filename subfolder save_dir w. unfold _download_image.
    now rewrite rstrip_slash. }
  repeat split; try assumption.
  intros json_loads workflow_path prompt_text out_dir poll timeout w.
  unfold generar.
  apply bind_ext; [reflexivity|]. intros workflow w1.
  apply bind_ext; [reflexivity|]. intros wrapper w2.
  apply bind_ext; [apply H1|]. intros pid w3.
  apply bind_ext; [reflexivity|]. intros pid' w4.
  apply bind_ext; [apply H2|]. intros hist w5.
  apply bind_ext; [reflexivity|]. intros picked w6.
  apply bind_ext; [reflexivity|]. intros filename w7.
  apply bind_ext; [reflexivity|]. intros subfolder w8.
  apply bind_ext; [apply H3|]. reflexivity.
Qed.

(* ================================================================== *)
(** * More on the workflow loader *)






(* ================================================================== *)
(** * The order of the calls of [generar] *)



(* ================================================================== *)
(** * More on stored objects *)

(** ** Allocation extends the store *)

Lemma alloc_extends (j : json) (s : store) :
  exists t, snd (Store.alloc j s) = s ++ t.
Proof. exact (proj1 (alloc_spec j s)). Qed.

Lemma alloc_items_extends (d : list (string * json)) :
  forall s, exists t, snd (Store.alloc_items Store.alloc d s) = s ++ t.
Proof.
  induction d as [|[k x] d IH]; intros s.
  - exists []. simpl. now rewrite app_nil_r.
  - simpl. destruct (alloc_extends x s) as (t1 & E1).
    destruct (Store.alloc x s) as [v s1]. simpl in E1. subst s1.
    destruct (IH (s ++ t1)) as (t2 & E2).
    destruct (Store.alloc_items Store.alloc d (s ++ t1)) as [kvs s2].
    simpl in E2. subst s2. simpl. exists (t1 ++ t2). now rewrite app_assoc.
Qed.

Lemma alloc_list_extends (l : list json) :
  forall s, exists t, snd (Store.alloc_list Store.alloc l s) = s ++ t.
Proof.
  induction l as [|x l IH]; intros s.
  - exists []. simpl. now rewrite app_nil_r.
  - simpl. destruct (alloc_extends x s) as (t1 & E1).
    destruct (Store.alloc x s) as [v s1]. simpl in E1. subst s1.
    destruct (IH (s ++ t1)) as (t2 & E2).
    destruct (Store.alloc_list Store.alloc l (s ++ t1)) as [vs s2].
    simpl in E2. subst s2. simpl. exists (t1 ++ t2). now rewrite app_assoc.
Qed.

Lemma alloc_object (d : list (string * json)) (s : store) :
  Store.alloc (JObj d) s
  = (VRef (List.length (snd (Store.alloc_items Store.alloc d s))),
     snd (Store.alloc_items Store.alloc d s)
       ++ [ODict (fst (Store.alloc_items Store.alloc d s))]).
Proof.
  simpl. now destruct (Store.alloc_items Store.alloc d s).
Qed.

Lemma alloc_items_cons (k : string) (x : json) (d : list (string * json))
  (s : store) :
  Store.alloc_items Store.alloc ((k, x) :: d) s
  = ((k, fst (Store.alloc x s))
       :: fst (Store.alloc_items Store.alloc d (snd (Store.alloc x s))),
     snd (Store.alloc_items Store.alloc d (snd (Store.alloc x s)))).
Proof.
  simpl. destruct (Store.alloc x s) as [v s1]. simpl.
  now destruct (Store.alloc_items Store.alloc d s1).
Qed.

Lemma alloc_list_cons (x : json) (l : list json) (s : store) :
  Store.alloc_list Store.alloc (x :: l) s
  = (fst (Store.alloc x s)
       :: fst (Store.alloc_list Store.alloc l (snd (Store.alloc x s))),
     snd (Store.alloc_list Store.alloc l (snd (Store.alloc x s)))).
Proof.
  simpl. destruct (Store.alloc x s) as [v s1]. simpl.
  now destruct (Store.alloc_list Store.alloc l s1).
Qed.

(** ** A value is read from the cells made for it *)

Lemma agree_prefix (lo hi : nat) (s t s' : store) :
  hi <= List.length s -> agree lo hi (s ++ t) s' -> agree lo hi s s'.
Proof.
  intros Hhi H i Hi. rewrite (H i Hi). apply nth_error_app1. lia.
Qed.

Lemma agree_narrow (lo hi lo' hi' : nat) (s s' : store) :
  lo <= lo' -> hi' <= hi -> agree lo hi s s' -> agree lo' hi' s s'.
Proof. intros H1 H2 H i Hi. apply H. lia. Qed.

Lemma alloc_items_local (d : list (string * json)) :
  Forall (fun kv => alloc_local (snd kv)) d ->
  forall (s0 s' : store) (N : nat),
    (forall kv, In kv d -> depth (snd kv) <= N) ->
    agree (List.length s0)
      (List.length (snd (Store.alloc_items Store.alloc d s0)))
      (snd (Store.alloc_items Store.alloc d s0)) s' ->
    Store.mapO (dump_member N s') (fst (Store.alloc_items Store.alloc d s0))
    = Some d.
Proof.
  induction 1 as [|[k x] d Hx Hd IH]; intros s0 s' N HN Hag; [reflexivity|].
  rewrite alloc_items_cons in *. cbn [fst snd] in *.
  destruct (alloc_extends x s0) as (t1 & E1).
  destruct (alloc_items_extends d (snd (Store.alloc x s0))) as (t2 & E2).
  cbn [Store.mapO]. unfold dump_member at 1. cbn [fst snd].
  assert (Hv : Store.dumps N s' (fst (Store.alloc x s0)) = Some x).
  { apply dumps_fuel with (n := depth x); [|apply (HN (k, x)); now left].
    apply Hx. rewrite E2 in Hag.
    apply agree_prefix with (t := t2); [lia|].
    eapply agree_narrow; [| |exact Hag]; [lia|].
    rewrite length_app. lia. }
  rewrite Hv. cbn [option_map].
  rewrite (IH (snd (Store.alloc x s0)) s' N); [reflexivity| |].
  - intros kv Hin. apply HN. now right.
  - eapply agree_narrow; [| |exact Hag]; [|lia].
    rewrite E1, length_app. lia.
Qed.

Lemma alloc_list_local (l : list json) :
  Forall alloc_local l ->
  forall (s0 s' : store) (N : nat),
    (forall x, In x l -> depth x <= N) ->
    agree (List.length s0)
      (List.length (snd (Store.alloc_list Store.alloc l s0)))
      (snd (Store.alloc_list Store.alloc l s0)) s' ->
    Store.mapO (Store.dumps N s') (fst (Store.alloc_list Store.alloc l s0))
    = Some l.
Proof.
  induction 1 as [|x l Hx Hl IH]; intros s0 s' N HN Hag; [reflexivity|].
  rewrite alloc_list_cons in *. cbn [fst snd] in *.
  destruct (alloc_extends x s0) as (t1 & E1).
  destruct (alloc_list_extends l (snd (Store.alloc x s0))) as (t2 & E2).
  cbn [Store.mapO].
  assert (Hv : Store.dumps N s' (fst (Store.alloc x s0)) = Some x).
  { apply dumps_fuel with (n := depth x); [|apply HN; now left].
    apply Hx. rewrite E2 in Hag.
    apply agree_prefix with (t := t2); [lia|].
    eapply agree_narrow; [| |exact Hag]; [lia|].
    rewrite length_app. lia. }
  rewrite Hv.
  rewrite (IH (snd (Store.alloc x s0)) s' N); [reflexivity| |].
  - intros y Hin. apply HN. now right.
  - eapply agree_narrow; [| |exact Hag]; [|lia].
    rewrite E1, length_app. lia.
Qed.

Lemma alloc_local_spec (j : json) : alloc_local j.
Proof.
  induction j as [|b|z|f|x|l IH|d IH] using json_induction; intros s0 s' Hag;
    try reflexivity.
  - set (N := fold_right Nat.max 0 (map depth l)).
    change (depth (JArr l)) with (S N).
    simpl Store.alloc in *.
    destruct (alloc_list_extends l s0) as (t & E).
    pose proof (alloc_list_local l IH s0 s' N) as Hl.
    destruct (Store.alloc_list Store.alloc l s0) as [vs s1].
    cbn [fst snd] in *. subst s1.
    cbn [Store.dumps]. rewrite (Hag (List.length (s0 ++ t))).
    2: { rewrite !length_app. simpl. lia. }
    rewrite nth_error_last. rewrite Hl; [reflexivity| |].
    + intros x Hx. pose proof (depth_item l x Hx) as Hlt.
      change (depth (JArr l)) with (S N) in Hlt. lia.
    + apply agree_prefix with (t := [OList vs]); [lia|].
      eapply agree_narrow; [| |exact Hag]; [lia|].
      rewrite !length_app. simpl. lia.
  - set (N := fold_right Nat.max 0 (map (fun kv => depth (snd kv)) d)).
    change (depth (JObj d)) with (S N).
    simpl Store.alloc in *.
    destruct (alloc_items_extends d s0) as (t & E).
    pose proof (alloc_items_local d IH s0 s' N) as Hl.
    destruct (Store.alloc_items Store.alloc d s0) as [kvs s1].
    cbn [fst snd] in *. subst s1.
    cbn [Store.dumps]. rewrite (Hag (List.length (s0 ++ t))).
    2: { rewrite !length_app. simpl. lia. }
    rewrite nth_error_last. fold (dump_member N s'). rewrite Hl; [reflexivity| |].
    + intros kv Hkv. pose proof (depth_member d kv Hkv) as Hlt.
      change (depth (JObj d)) with (S N) in Hlt. lia.
    + apply agree_prefix with (t := [ODict kvs]); [lia|].
      eapply agree_narrow; [| |exact Hag]; [lia|].
      rewrite !length_app. simpl. lia.
Qed.

(** ** One member replaced *)

Lemma dumps_fun (n m : nat) (s : store) (v : value) (j j' : json) :
  Store.dumps n s v = Some j -> Store.dumps m s v = Some j' -> j = j'.
Proof.
  intros H H'.
  apply dumps_fuel with (m := Nat.max n m) in H; [|lia].
  apply dumps_fuel with (m := Nat.max n m) in H'; [|lia].
  congruence.
Qed.

Lemma mapO_set (N : nat) (s : store) (kvs : list (string * value))
  (k : string) (v : value) (j : json) :
  forall d,
    Store.mapO (dump_member N s) kvs = Some d ->
    Store.dumps N s v = Some j ->
    Store.mapO (dump_member N s) (Py.set k v kvs) = Some (Py.set k j d).
Proof.
  induction kvs as [|[k' v'] kvs IH]; intros d Hd Hv.
  - injection Hd as <-. simpl. unfold dump_member. simpl. now rewrite Hv.
  - cbn [Store.mapO] in Hd. unfold dump_member at 1 in Hd. cbn [fst snd] in Hd.
    destruct (Store.dumps N s v') as [j'|] eqn:Ev'; [|discriminate Hd].
    cbn [option_map] in Hd.
    destruct (Store.mapO (dump_member N s) kvs) as [d'|] eqn:Ed';
      [|discriminate Hd].
    injection Hd as <-. cbn [Py.set].
    destruct (String.eqb k k').
    + cbn [Store.mapO]. unfold dump_member at 1. cbn [fst snd].
      now rewrite Hv, Ed'.
    + cbn [Store.mapO]. unfold dump_member at 1. cbn [fst snd].
      now rewrite Ev', (IH d' eq_refl Hv).
Qed.

Lemma alloc_items_hole (d : list (string * json)) :
  forall (s0 : store) (k : string) (x : json),
    Py.lookup k d = Some x ->
    exists sa,
      Py.lookup k (fst (Store.alloc_items Store.alloc d s0))
      = Some (fst (Store.alloc x sa)) /\
      (exists t, sa = s0 ++ t) /\
      (exists t, snd (Store.alloc_items Store.alloc d s0)
                 = snd (Store.alloc x sa) ++ t) /\
      forall (N : nat) (s' : store) (jk : json),
        (forall kv, In kv d -> depth (snd kv) <= N) ->
        (forall i,
            List.length s0 <= i
            < List.length (snd (Store.alloc_items Store.alloc d s0)) ->
            i < List.length sa \/ List.length (snd (Store.alloc x sa)) <= i ->
            nth_error s' i
            = nth_error (snd (Store.alloc_items Store.alloc d s0)) i) ->
        Store.dumps N s' (fst (Store.alloc x sa)) = Some jk ->
        Store.mapO (dump_member N s') (fst (Store.alloc_items Store.alloc d s0))
        = Some (Py.set k jk d).
Proof.
  induction d as [|[k0 x0] d IH]; intros s0 k x Hk; [discriminate Hk|].
  rewrite alloc_items_cons. cbn [fst snd].
  destruct (alloc_extends x0 s0) as (t1 & E1).
  destruct (alloc_items_extends d (snd (Store.alloc x0 s0))) as (t2 & E2).
  cbn [Py.lookup] in Hk |- *. cbn [Py.set].
  destruct (String.eqb k k0) eqn:Ek.
  - injection Hk as ->. apply String.eqb_eq in Ek. subst k0.
    exists s0. split; [reflexivity|].
    split; [exists []; now rewrite app_nil_r|].
    split; [now exists t2|].
    intros N s' jk HN Hag Hv.
    cbn [Store.mapO]. unfold dump_member at 1. cbn [fst snd]. rewrite Hv.
    cbn [option_map].
    rewrite (alloc_items_local d); [reflexivity| | |].
    + apply Forall_forall. intros kv _. apply alloc_local_spec.
    + intros kv Hin. apply HN. now right.
    + intros i Hi.
      assert (List.length s0 <= List.length (snd (Store.alloc x s0)))
        by (rewrite E1, length_app; lia).
      apply Hag; lia.
  - destruct (IH (snd (Store.alloc x0 s0)) k x Hk)
      as (sa & Hlk & (t & Ea) & (t' & Eb) & Hset).
    exists sa. split; [exact Hlk|].
    split; [exists (t1 ++ t); now rewrite Ea, E1, app_assoc|].
    split; [now exists t'|].
    intros N s' jk HN Hag Hv.
    cbn [Store.mapO]. unfold dump_member at 1. cbn [fst snd].
    assert (Hv0 : Store.dumps N s' (fst (Store.alloc x0 s0)) = Some x0).
    { apply dumps_fuel with (n := depth x0); [|apply (HN (k0, x0)); now left].
      apply alloc_local_spec. intros i Hi.
      rewrite Hag.
      - rewrite E2. apply nth_error_app1. lia.
      - rewrite E2, length_app. lia.
      - left. rewrite Ea, length_app. lia. }
    rewrite Hv0. cbn [option_map].
    rewrite (Hset N s' jk); [reflexivity| | |exact Hv].
    + intros kv Hin. apply HN. now right.
    + intros i Hi Hout.
      assert (List.length s0 <= List.length (snd (Store.alloc x0 s0)))
        by (rewrite E1, length_app; lia).
      apply Hag; [lia|exact Hout].
Qed.

Lemma alloc_object_hole (d : list (string * json)) (s0 : store) (k : string)
  (x : json) :
  Py.lookup k d = Some x ->
  exists sa,
    field (snd (Store.alloc (JObj d) s0)) (fst (Store.alloc (JObj d) s0)) k
    = Some (fst (Store.alloc x sa)) /\
    (exists t, sa = s0 ++ t) /\
    (exists t, snd (Store.alloc (JObj d) s0) = snd (Store.alloc x sa) ++ t) /\
    List.length (snd (Store.alloc x sa))
    < List.length (snd (Store.alloc (JObj d) s0)) /\
    forall (N : nat) (s' : store) (jk : json),
      (forall kv, In kv d -> depth (snd kv) <= N) ->
      (forall i,
          List.length s0 <= i
          < List.length (snd (Store.alloc (JObj d) s0)) ->
          i < List.length sa \/ List.length (snd (Store.alloc x sa)) <= i ->
          nth_error s' i = nth_error (snd (Store.alloc (JObj d) s0)) i) ->
      Store.dumps N s' (fst (Store.alloc x sa)) = Some jk ->
      Store.dumps (S N) s' (fst (Store.alloc (JObj d) s0))
      = Some (JObj (Py.set k jk d)).
Proof.
  intros Hk. rewrite alloc_object. cbn [fst snd].
  destruct (alloc_items_hole d s0 k x Hk)
    as (sa & Hlk & (t & Ea) & (t' & Eb) & Hset).
  destruct (alloc_items_extends d s0) as (t0 & E0).
  set (kvs := fst (Store.alloc_items Store.alloc d s0)) in *.
  set (s1 := snd (Store.alloc_items Store.alloc d s0)) in *.
  exists sa. split.
  { unfold field. now rewrite nth_error_last. }
  split; [now exists t|].
  split; [exists (t' ++ [ODict kvs]); now rewrite Eb, app_assoc|].
  split; [rewrite Eb, !length_app; simpl; lia|].
  intros N s' jk HN Hag Hv.
  cbn [Store.dumps].
  rewrite (Hag (List.length s1)).
  2: { rewrite length_app. simpl. rewrite E0, length_app. lia. }
  2: { right. rewrite Eb, length_app. lia. }
  rewrite nth_error_last.
  change (fun kv : string * value =>
            option_map (pair (fst kv)) (Store.dumps N s' (snd kv)))
    with (dump_member N s').
  rewrite (Hset N s' jk HN); [reflexivity| |exact Hv].
  intros i Hi Hout. rewrite Hag; [|rewrite length_app; lia|exact Hout].
  apply nth_error_app1. lia.
Qed.

(** ** Stores without cycles *)

Lemma ref_below_mono (lo hi lo' hi' : nat) (v : value) :
  lo' <= lo -> hi <= hi' -> ref_below lo hi v -> ref_below lo' hi' v.
Proof. destruct v; simpl; try easy. lia. Qed.

Lemma downward_snoc (lo : nat) (s : store) (o : object) :
  downward lo s ->
  Forall (ref_below lo (List.length s)) (members o) ->
  downward lo (s ++ [o]).
Proof.
  intros Hs Ho l o' Hl Hlo.
  destruct (Nat.lt_ge_cases l (List.length s)) as [Hlt|Hge].
  - rewrite nth_error_app1 in Hl by exact Hlt. now apply Hs.
  - assert (l = List.length s) as ->.
    { assert (Hlen : l < List.length (s ++ [o]))
        by (apply nth_error_Some; congruence).
      rewrite length_app in Hlen. simpl in Hlen. lia. }
    rewrite nth_error_last in Hl. now injection Hl as <-.
Qed.

Lemma alloc_items_downward (d : list (string * json)) :
  Forall (fun kv => alloc_downward (snd kv)) d ->
  forall (s0 : store) (lo : nat),
    lo <= List.length s0 ->
    downward lo s0 ->
    downward lo (snd (Store.alloc_items Store.alloc d s0)) /\
    Forall (ref_below lo (List.length (snd (Store.alloc_items Store.alloc d s0))))
      (map snd (fst (Store.alloc_items Store.alloc d s0))).
Proof.
  induction 1 as [|[k x] d Hx Hd IH]; intros s0 lo Hlo Hs0.
  - split; [exact Hs0|constructor].
  - rewrite alloc_items_cons. cbn [fst snd map].
    destruct (alloc_extends x s0) as (t1 & E1).
    destruct (alloc_items_extends d (snd (Store.alloc x s0))) as (t2 & E2).
    destruct (Hx s0 lo Hlo Hs0) as (Hs1 & Hv). cbn [snd] in Hs1, Hv.
    destruct (IH (snd (Store.alloc x s0)) lo) as (Hs2 & Hvs).
    { rewrite E1, length_app. lia. }
    { exact Hs1. }
    split; [exact Hs2|]. constructor; [|exact Hvs].
    eapply ref_below_mono; [| |exact Hv]; [exact Hlo|].
    rewrite E2, length_app. lia.
Qed.

Lemma alloc_list_downward (l : list json) :
  Forall alloc_downward l ->
  forall (s0 : store) (lo : nat),
    lo <= List.length s0 ->
    downward lo s0 ->
    downward lo (snd (Store.alloc_list Store.alloc l s0)) /\
    Forall (ref_below lo (List.length (snd (Store.alloc_list Store.alloc l s0))))
      (fst (Store.alloc_list Store.alloc l s0)).
Proof.
  induction 1 as [|x l Hx Hl IH]; intros s0 lo Hlo Hs0.
  - split; [exact Hs0|constructor].
  - rewrite alloc_list_cons. cbn [fst snd].
    destruct (alloc_extends x s0) as (t1 & E1).
    destruct (alloc_list_extends l (snd (Store.alloc x s0))) as (t2 & E2).
    destruct (Hx s0 lo Hlo Hs0) as (Hs1 & Hv).
    destruct (IH (snd (Store.alloc x s0)) lo) as (Hs2 & Hvs).
    { rewrite E1, length_app. lia. }
    { exact Hs1. }
    split; [exact Hs2|]. constructor; [|exact Hvs].
    eapply ref_below_mono; [| |exact Hv]; [exact Hlo|].
    rewrite E2, length_app. lia.
Qed.

Lemma alloc_downward_spec (j : json) : alloc_downward j.
Proof.
  induction j as [|b|z|f|x|l IH|d IH] using json_induction;
    intros s0 lo Hlo Hs0; try (split; [exact Hs0|exact I]).
  - simpl Store.alloc.
    destruct (alloc_list_extends l s0) as (t & E).
    destruct (alloc_list_downward l IH s0 lo Hlo Hs0) as (Hs1 & Hvs).
    destruct (Store.alloc_list Store.alloc l s0) as [vs s1].
    cbn [fst snd] in *. split.
    + now apply downward_snoc.
    + simpl. rewrite E, !length_app. simpl. lia.
  - simpl Store.alloc.
    destruct (alloc_items_extends d s0) as (t & E).
    destruct (alloc_items_downward d IH s0 lo Hlo Hs0) as (Hs1 & Hvs).
    destruct (Store.alloc_items Store.alloc d s0) as [kvs s1].
    cbn [fst snd] in *. split.
    + now apply downward_snoc.
    + simpl. rewrite E, !length_app. simpl. lia.
Qed.

Lemma set_members (P : value -> Prop) (k : string) (v : value)
  (kvs : list (string * value)) :
  P v -> Forall P (map snd kvs) -> Forall P (map snd (Py.set k v kvs)).
Proof.
  intros Hv. induction kvs as [|[k' v'] kvs IH]; intros H; simpl.
  - now constructor.
  - apply Forall_cons_iff in H as [H1 H2].
    destruct (String.eqb k k'); simpl; constructor; auto.
Qed.

Lemma downward_update (lo : nat) (s : store) (l : nat)
  (kvs : list (string * value)) (k : string) (v : value) :
  downward lo s ->
  nth_error s l = Some (ODict kvs) ->
  ref_below lo l v ->
  downward lo (Store.update l (ODict (Py.set k v kvs)) s).
Proof.
  intros Hs Hl Hv l' o Hl' Hlo.
  destruct (Nat.eq_dec l' l) as [->|Hne].
  - rewrite (nth_error_update_same _ _ _ _ Hl) in Hl'. injection Hl' as <-.
    simpl. apply set_members; [exact Hv|]. exact (Hs l _ Hl Hlo).
  - rewrite nth_error_update_other in Hl' by exact Hne. now apply Hs.
Qed.

Lemma mapO_total {A B : Type} (f : A -> option B) (l : list A) :
  Forall (fun a => exists b, f a = Some b) l ->
  exists bs, Store.mapO f l = Some bs.
Proof.
  induction 1 as [|a l (b & Hb) _ (bs & Hbs)]; simpl; [now eexists|].
  rewrite Hb, Hbs. now eexists.
Qed.

Lemma dumps_ref (n : nat) (s : store) (l : nat) :
  Store.dumps (S n) s (VRef l)
  = match nth_error s l with
    | Some (OList items) => option_map JArr (Store.mapO (Store.dumps n s) items)
    | Some (ODict items) => option_map JObj (Store.mapO (dump_member n s) items)
    | None => None
    end.
Proof. reflexivity. Qed.

(** In a store without cycles every value is written, with fuel for
    the cells it can reach. *)
Lemma dumps_downward (lo : nat) (s : store) :
  downward lo s ->
  forall (n : nat) (v : value),
    ref_below lo (lo + n) v -> lo + n <= List.length s ->
    exists j, Store.dumps (S n) s v = Some j.
Proof.
  intros Hs. induction n as [|n IH]; intros v Hv Hn.
  - destruct v as [|b|z|f|x|l]; try (now eexists). simpl in Hv. lia.
  - destruct v as [|b|z|f|x|l]; try (now eexists). simpl in Hv.
    destruct (nth_error s l) as [o|] eqn:Hl.
    2: { apply nth_error_None in Hl. lia. }
    pose proof (Hs l o Hl (proj1 Hv)) as Hm.
    assert (Hall : Forall (fun v => exists j, Store.dumps (S n) s v = Some j)
                     (members o)).
    { eapply Forall_impl; [|exact Hm]. intros v' Hv'. apply IH; [|lia].
      eapply ref_below_mono; [| |exact Hv']; lia. }
    rewrite dumps_ref, Hl. destruct o as [vs|kvs]; cbn [members] in Hall.
    + destruct (mapO_total _ _ Hall) as (js & ->). now eexists.
    + assert (Hall' : Forall (fun kv => exists b,
                  dump_member (S n) s kv = Some b) kvs).
      { apply Forall_forall. intros kv Hin.
        rewrite Forall_forall in Hall. unfold dump_member.
        destruct (Hall (snd kv) (in_map snd _ _ Hin)) as (j & ->).
        now eexists. }
      destruct (mapO_total _ _ Hall') as (js & ->). now eexists.
Qed.

Lemma json_dumps_downward (lo : nat) (w : world) (l : nat) :
  downward lo (objects w) -> lo <= l < List.length (objects w) ->
  exists body,
    Store.dumps (S (List.length (objects w))) (objects w) (VRef l) = Some body.
Proof.
  intros Hs Hl.
  destruct (dumps_downward lo (objects w) Hs (List.length (objects w) - lo)
              (VRef l)) as (j & Hj).
  - simpl. lia.
  - lia.
  - exists j. eapply dumps_fuel; [exact Hj|lia].
Qed.

(** ** The workflow after [load_workflow] *)

Lemma field_extend (s t : store) (v : value) (k : string) (x : value) :
  field s v k = Some x -> field (s ++ t) v k = Some x.
Proof.
  unfold field. destruct v as [|b|z|f|y|l]; try discriminate.
  destruct (nth_error s l) as [o|] eqn:Hl; [|discriminate].
  rewrite nth_error_app1 by (apply nth_error_Some; congruence).
  now rewrite Hl.
Qed.

Lemma length_update (l : nat) (o : object) (s : store) :
  List.length (Store.update l o s) = List.length s.
Proof.
  revert l. induction s as [|x s IH]; intros [|l]; simpl; try reflexivity.
  now rewrite IH.
Qed.

Lemma depth_pos (j : json) : 0 < depth j.
Proof. destruct j; simpl; lia. Qed.

Lemma downward_fresh (s : store) : downward (List.length s) s.
Proof.
  intros l o Hl Hlo.
  assert (l < List.length s) by (apply nth_error_Some; congruence). lia.
Qed.

Lemma load_workflow_run (json_loads : string -> option json)
  (workflow_path prompt_text raw : string) (w : world)
  (d node inputs : list (string * json)) :
  Fs.read_text (Pathlib.Path workflow_path) (files w) = Ok raw ->
  json_loads raw = Some (JObj d) ->
  Py.lookup "6" d = Some (JObj node) ->
  Py.lookup "inputs" node = Some (JObj inputs) ->
  exists lw s',
    load_workflow json_loads workflow_path prompt_text w
    = Some (Ok (VRef lw), with_objects s' w) /\
    List.length (objects w) <= lw < List.length s' /\
    downward (List.length (objects w)) s' /\
    Store.dumps (S (S (S (depth (JObj d))))) s' (VRef lw)
    = Some (with_prompt prompt_text d node inputs) /\
    forall i, i < List.length (objects w) ->
              nth_error s' i = nth_error (objects w) i.
Proof.
  intros Hraw Hload H6 Hin.
  set (s0 := objects w).
  set (N := depth (JObj d)).
  (* the cells of the document, of node 6 and of its inputs *)
  destruct (alloc_object_hole d s0 "6" (JObj node) H6)
    as (sa1 & Hf6 & (ta1 & Ea1) & (tb1 & Eb1) & Hlt1 & Hset1).
  destruct (alloc_object_hole node sa1 "inputs" (JObj inputs) Hin)
    as (sa2 & Hfin & (ta2 & Ea2) & (tb2 & Eb2) & Hlt2 & Hset2).
  destruct (alloc_items_extends inputs sa2) as (ti & Ei).
  destruct (alloc_items_extends d s0) as (td & Ed).
  rewrite (alloc_object inputs sa2) in Hfin, Eb2, Hlt2, Hset2.
  cbn [fst snd] in Hfin, Eb2, Hlt2, Hset2.
  set (kvs := fst (Store.alloc_items Store.alloc inputs sa2)) in *.
  set (si := snd (Store.alloc_items Store.alloc inputs sa2)) in *.
  set (l := List.length si) in *.
  set (workflow := fst (Store.alloc (JObj d) s0)) in *.
  set (s := snd (Store.alloc (JObj d) s0)) in *.
  set (nodo_6 := fst (Store.alloc (JObj node) sa1)) in *.
  set (s6 := snd (Store.alloc (JObj node) sa1)) in *.
  assert (Hwf : workflow
                = VRef (List.length (snd (Store.alloc_items Store.alloc d s0)))).
  { subst workflow. now rewrite alloc_object. }
  assert (Hs : s = snd (Store.alloc_items Store.alloc d s0)
                     ++ [ODict (fst (Store.alloc_items Store.alloc d s0))]).
  { subst s. now rewrite alloc_object. }
  assert (Hl : nth_error s l = Some (ODict kvs)).
  { rewrite Eb1, Eb2.
    rewrite nth_error_app1 by (rewrite !length_app; simpl; unfold l; lia).
    rewrite nth_error_app1 by (rewrite length_app; simpl; unfold l; lia).
    apply nth_error_last. }
  assert (Hlen6 : List.length s6 = (l + 1 + List.length tb2)%nat).
  { rewrite Eb2, !length_app. reflexivity. }
  assert (Hlens : List.length s = (List.length s6 + List.length tb1)%nat).
  { rewrite Eb1, length_app. reflexivity. }
  assert (Hla2 : List.length sa2 <= l).
  { unfold l. rewrite Ei, length_app. lia. }
  assert (Hla1 : List.length sa1 <= List.length sa2).
  { rewrite Ea2, length_app. lia. }
  assert (Hl0 : List.length s0 <= List.length sa1).
  { rewrite Ea1, length_app. lia. }
  set (s' := Store.update l (ODict (Py.set "text" (VStr prompt_text) kvs)) s).
  assert (Hother : forall i, i <> l -> nth_error s' i = nth_error s i).
  { intros i Hi. unfold s'. now apply nth_error_update_other. }
  exists (List.length (snd (Store.alloc_items Store.alloc d s0))), s'.
  rewrite <- Hwf.
  split; [|split; [|split; [|split]]].
  - (* the run *)
    set (w1 := with_objects s w).
    assert (Hnew : new_object (JObj d) w = Some (Ok workflow, w1)).
    { unfold new_object, w1, workflow, s. fold s0.
      now destruct (Store.alloc (JObj d) s0). }
    assert (Hf6' : field (objects w1) workflow "6" = Some nodo_6) by exact Hf6.
    assert (Hfin' : field (objects w1) nodo_6 "inputs" = Some (VRef l)).
    { cbn [objects w1 with_objects]. rewrite Eb1. now apply field_extend. }
    unfold load_workflow.
    rewrite (bind_ok _ _ w w raw (read_text_ok _ _ _ Hraw)).
    rewrite Hload, (bind_ok _ _ w w1 workflow Hnew).
    rewrite (bind_ok _ _ w1 w1 nodo_6 (obj_getitem_field workflow "6" w1 _ Hf6')).
    rewrite (bind_ok _ _ w1 w1 (VRef l)
               (obj_getitem_field nodo_6 "inputs" w1 _ Hfin')).
    rewrite (bind_ok _ _ w1 (with_objects s' w1) tt
               (obj_setitem_dict l "text" (VStr prompt_text) w1 kvs Hl)).
    reflexivity.
  - (* where the workflow is *)
    unfold s'. rewrite length_update, Hs, length_app. simpl.
    rewrite Ed, length_app. fold s0. lia.
  - (* no cycles *)
    unfold s'. apply downward_update with (kvs := kvs).
    + apply (alloc_downward_spec (JObj d) s0 (List.length s0) (le_n _)).
      apply downward_fresh.
    + exact Hl.
    + exact I.
  - (* the document *)
    assert (HNd : forall kv, In kv d -> depth (snd kv) <= N).
    { intros kv Hkv. pose proof (depth_member d kv Hkv). unfold N. lia. }
    assert (Hnode : depth (JObj node) < N).
    { apply lookup_In in H6. exact (depth_member d _ H6). }
    assert (HNn : forall kv, In kv node -> depth (snd kv) <= N).
    { intros kv Hkv. pose proof (depth_member node kv Hkv). lia. }
    assert (Hinputs : depth (JObj inputs) < N).
    { apply lookup_In in Hin. pose proof (depth_member node _ Hin) as H.
      simpl snd in H. lia. }
    assert (HNi : forall kv, In kv inputs -> depth (snd kv) <= N).
    { intros kv Hkv. pose proof (depth_member inputs kv Hkv). lia. }
    assert (Hinner :
      Store.dumps (S N) s' (VRef l)
      = Some (JObj (Py.set "text" (JStr prompt_text) inputs))).
    { rewrite dumps_ref. unfold s' at 1.
      rewrite (nth_error_update_same _ _ _ _ Hl).
      rewrite (mapO_set N s' kvs "text" (VStr prompt_text) (JStr prompt_text)
                 inputs); [reflexivity| |].
      - apply alloc_items_local.
        + apply Forall_forall. intros kv _. apply alloc_local_spec.
        + exact HNi.
        + fold si. fold l. intros i Hi. rewrite Hother by lia.
          rewrite Eb1, Eb2, <- !app_assoc. apply nth_error_app1. fold l. lia.
      - pose proof (depth_pos (JObj d)) as Hpos. fold N in Hpos.
        destruct N; [lia|reflexivity]. }
    assert (Hmiddle :
      Store.dumps (S (S N)) s' nodo_6
      = Some (JObj (Py.set "inputs"
                      (JObj (Py.set "text" (JStr prompt_text) inputs)) node))).
    { apply Hset2; [| |exact Hinner].
      - intros kv Hkv. specialize (HNn kv Hkv). lia.
      - intros i Hi Hout. rewrite length_app in Hout. simpl in Hout.
        fold l in Hout. rewrite Hother by lia.
        rewrite Eb1. apply nth_error_app1. lia. }
    unfold with_prompt. apply Hset1; [| |exact Hmiddle].
    + intros kv Hkv. specialize (HNd kv Hkv). lia.
    + intros i Hi Hout. apply Hother. lia.
  - (* the objects that were there *)
    intros i Hi. fold s0 in Hi. rewrite Hother by lia.
    rewrite Hs, Ed, <- app_assoc. fold s0. now apply nth_error_app1.
Qed.

(** X15. [json.dumps] of the workflow that [load_workflow] returns is the
    document of the file with ["6"]["inputs"]["text"] replaced by the
    prompt, every other member of every object as it was and in its
    place.  The objects that were there before are untouched, and so is
    everything else. *)
Theorem load_workflow_document :
  forall json_loads workflow_path prompt_text raw w d node inputs,
    Fs.read_text (Pathlib.Path workflow_path) (files w) = Ok raw ->
    json_loads raw = Some (JObj d) ->
    Py.lookup "6" d = Some (JObj node) ->
    Py.lookup "inputs" node = Some (JObj inputs) ->
    exists workflow w',
      load_workflow json_loads workflow_path prompt_text w
      = Some (Ok workflow, w') /\
      json_dumps workflow w'
      = Some (Ok (with_prompt prompt_text d node inputs), w') /\
      only_objects_changed w w' /\
      forall i, i < List.length (objects w) ->
                nth_error (objects w') i = nth_error (objects w) i.
Proof.
  intros json_loads workflow_path prompt_text raw w d node inputs
    Hraw Hload H6 Hin.
  destruct (load_workflow_run json_loads workflow_path prompt_text raw w
              d node inputs Hraw Hload H6 Hin)
    as (lw & s' & Hrun & Hlw & Hdown & Hdoc & Hold).
  exists (VRef lw), (with_objects s' w).
  split; [exact Hrun|]. split; [|split; [now repeat split|exact Hold]].
  unfold json_dumps. cbn [objects with_objects].
  destruct (json_dumps_downward (List.length (objects w)) (with_objects s' w) lw
              Hdown Hlw) as (body & Hbody).
  cbn [objects with_objects] in Hbody. rewrite Hbody.
  now rewrite (dumps_fun _ _ _ _ _ _ Hbody Hdoc).
Qed.

Lemma load_workflow_document_witness :
  exists workflow w',
    load_workflow sample_loads "workflow.json" "a cat"
      (world_with_file text_workflow)
    = Some (Ok workflow, w') /\
    json_dumps workflow w'
    = Some (Ok (JObj [("6", JObj [("inputs",
                                   JObj [("text", JStr "a cat");
                                         ("seed", JInt 5)])])]), w') /\
    only_objects_changed (world_with_file text_workflow) w' /\
    forall i, i < List.length (objects (world_with_file text_workflow)) ->
              nth_error (objects w') i
              = nth_error (objects (world_with_file text_workflow)) i.
Proof.
  apply (load_workflow_document sample_loads "workflow.json" "a cat"
           text_workflow (world_with_file text_workflow)
           [("6", JObj [("inputs", JObj [("text", JStr "old"); ("seed", JInt 5)])])]
           [("inputs", JObj [("text", JStr "old"); ("seed", JInt 5)])]
           [("text", JStr "old"); ("seed", JInt 5)]);
    reflexivity.
Defined.

(* ================================================================== *)
(** * What [generar] sends, and a run that succeeds *)












(* ================================================================== *)
(** * Workflows of another shape *)

(** Subscripting what was made for a document that is no object raises
    [TypeError], in every store that holds the cells made for it. *)
Lemma not_object_getitem (x : json) (sa t : store) (k : string) (w : world) :
  is_object x = false ->
  objects w = snd (Store.alloc x sa) ++ t ->
  obj_getitem (fst (Store.alloc x sa)) k w = Some (Error TypeError, w).
Proof.
  intros Hx Hw. unfold obj_getitem, bind, deref.
  destruct x as [|b|z|f|s|l|d]; try reflexivity; [|discriminate Hx].
  simpl Store.alloc in *.
  destruct (Store.alloc_list Store.alloc l sa) as [vs s1]. cbn [fst snd] in *.
  rewrite Hw, nth_error_app1, nth_error_last; [reflexivity|].
  rewrite length_app. simpl. lia.
Qed.

Lemma not_object_setitem (x : json) (sa t : store) (k : string) (v : value)
  (w : world) :
  is_object x = false ->
  objects w = snd (Store.alloc x sa) ++ t ->
  obj_setitem (fst (Store.alloc x sa)) k v w = Some (Error TypeError, w).
Proof.
  intros Hx Hw. unfold obj_setitem, bind, deref.
  destruct x as [|b|z|f|s|l|d]; try reflexivity; [|discriminate Hx].
  simpl Store.alloc in *.
  destruct (Store.alloc_list Store.alloc l sa) as [vs s1]. cbn [fst snd] in *.
  rewrite Hw, nth_error_app1, nth_error_last; [reflexivity|].
  rewrite length_app. simpl. lia.
Qed.

Lemma new_object_run (j : json) (w : world) :
  new_object j w
  = Some (Ok (fst (Store.alloc j (objects w))),
          with_objects (snd (Store.alloc j (objects w))) w).
Proof. unfold new_object. now destruct (Store.alloc j (objects w)). Qed.

(** X18. A workflow file that decodes, but not to the shape [generar] writes
    into, ends [generar] before any request, with the files as they
    were: [TypeError] when the document, its node "6" or the "inputs"
    of the node is no object (a list, a string, a number, [null]);
    [KeyError] for "inputs" when node "6" is an object without it. *)
Theorem generar_rejects_other_shapes :
  forall json_loads workflow_path prompt_text host out_dir poll timeout
         raw w j,
    Fs.read_text (Pathlib.Path workflow_path) (files w) = Ok raw ->
    json_loads raw = Some j ->
    forall e,
      (is_object j = false /\ e = TypeError) \/
      (exists d x,
          j = JObj d /\ Py.lookup "6" d = Some x /\
          is_object x = false /\ e = TypeError) \/
      (exists d node,
          j = JObj d /\ Py.lookup "6" d = Some (JObj node) /\
          Py.lookup "inputs" node = None /\ e = KeyError (JStr "inputs")) \/
      (exists d node x,
          j = JObj d /\ Py.lookup "6" d = Some (JObj node) /\
          Py.lookup "inputs" node = Some x /\
          is_object x = false /\ e = TypeError) ->
      exists w',
        generar json_loads workflow_path prompt_text host out_dir poll timeout w
        = Some (Error e, w') /\
        calls w' = calls w /\ replies w' = replies w /\ files w' = files w.
Proof.
  intros json_loads workflow_path prompt_text host out_dir poll timeout
    raw w j Hraw Hload e Hshape.
  set (w1 := with_objects (snd (Store.alloc j (objects w))) w).
  exists w1. split; [|now repeat split].
  unfold generar. apply bind_error. unfold load_workflow.
  rewrite (bind_ok _ _ w w raw (read_text_ok _ _ _ Hraw)).
  rewrite Hload, (bind_ok _ _ w w1 _ (new_object_run j w)).
  destruct Hshape as [(Hj & ->)|[(d & x & -> & H6 & Hx & ->)|
                     [(d & node & -> & H6 & Hin & ->)|
                      (d & node & x & -> & H6 & Hin & Hx & ->)]]].
  - apply bind_error.
    apply (not_object_getitem j (objects w) []); [exact Hj|].
    unfold w1. cbn [objects with_objects]. now rewrite app_nil_r.
  - destruct (alloc_object_hole d (objects w) "6" x H6)
      as (sa & Hf6 & _ & (tb & Eb) & _).
    rewrite (bind_ok _ _ w1 w1 _ (obj_getitem_field _ "6" w1 _ Hf6)).
    apply bind_error. now apply (not_object_getitem x sa tb).
  - destruct (alloc_object_hole d (objects w) "6" (JObj node) H6)
      as (sa & Hf6 & _ & (tb & Eb) & _).
    rewrite (bind_ok _ _ w1 w1 _ (obj_getitem_field _ "6" w1 _ Hf6)).
    apply bind_error.
    destruct (alloc_spec (JObj node) sa) as [_ Hdoc].
    destruct (field_absent _ _ _ _ _ Hdoc Hin) as (l & kvs & Ev & Hl & Hk).
    rewrite Ev. apply obj_getitem_absent with (d := kvs); [|exact Hk].
    unfold w1. cbn [objects with_objects]. rewrite Eb.
    rewrite nth_error_app1 by (apply nth_error_Some; congruence). exact Hl.
  - destruct (alloc_object_hole d (objects w) "6" (JObj node) H6)
      as (sa & Hf6 & _ & (tb & Eb) & _).
    rewrite (bind_ok _ _ w1 w1 _ (obj_getitem_field _ "6" w1 _ Hf6)).
    destruct (alloc_object_hole node sa "inputs" x Hin)
      as (sa' & Hfin & _ & (tb' & Eb') & _).
    assert (Hfin' : field (objects w1) (fst (Store.alloc (JObj node) sa))
                      "inputs" = Some (fst (Store.alloc x sa'))).
    { unfold w1. cbn [objects with_objects]. rewrite Eb.
      now apply field_extend. }
    rewrite (bind_ok _ _ w1 w1 _ (obj_getitem_field _ "inputs" w1 _ Hfin')).
    apply bind_error.
    apply (not_object_setitem x sa' (tb' ++ tb)); [exact Hx|].
    unfold w1. cbn [objects with_objects]. now rewrite Eb, Eb', app_assoc.
Qed.

Lemma generar_rejects_other_shapes_witness :
  (exists w',
      generar sample_shapes "workflow.json" "a cat" "http://localhost:8188"
        "./outputs" 2 300 (world_with_file text_list)
      = Some (Error TypeError, w') /\
      calls w' = calls (world_with_file text_list) /\
      replies w' = replies (world_with_file text_list) /\
      files w' = files (world_with_file text_list)) /\
  (exists w',
      generar sample_shapes "workflow.json" "a cat" "http://localhost:8188"
        "./outputs" 2 300 (world_with_file text_node_list)
      = Some (Error TypeError, w') /\
      calls w' = calls (world_with_file text_node_list) /\
      replies w' = replies (world_with_file text_node_list) /\
      files w' = files (world_with_file text_node_list)) /\
  (exists w',
      generar sample_shapes "workflow.json" "a cat" "http://localhost:8188"
        "./outputs" 2 300 (world_with_file text_node_plain)
      = Some (Error (KeyError (JStr "inputs")), w') /\
      calls w' = calls (world_with_file text_node_plain) /\
      replies w' = replies (world_with_file text_node_plain) /\
      files w' = files (world_with_file text_node_plain)) /\
  (exists w',
      generar sample_shapes "workflow.json" "a cat" "http://localhost:8188"
        "./outputs" 2 300 (world_with_file text_inputs_null)
      = Some (Error TypeError, w') /\
      calls w' = calls (world_with_file text_inputs_null) /\
      replies w' = replies (world_with_file text_inputs_null) /\
      files w' = files (world_with_file text_inputs_null)).
Proof.
  split; [|split; [|split]].
  - apply (generar_rejects_other_shapes sample_shapes "workflow.json" "a cat"
             "http://localhost:8188" "./outputs" 2 300 text_list
             (world_with_file text_list) (JArr []) eq_refl eq_refl).
    left. split; reflexivity.
  - apply (generar_rejects_other_shapes sample_shapes "workflow.json" "a cat"
             "http://localhost:8188" "./outputs" 2 300 text_node_list
             (world_with_file text_node_list)
             (JObj [("5", JObj []); ("6", JArr [JInt 1])]) eq_refl eq_refl).
    right. left. exists [("5", JObj []); ("6", JArr [JInt 1])], (JArr [JInt 1]).
    repeat split.
  - apply (generar_rejects_other_shapes sample_shapes "workflow.json" "a cat"
             "http://localhost:8188" "./outputs" 2 300 text_node_plain
             (world_with_file text_node_plain)
             (JObj [("6", JObj [("class_type", JStr "CLIPTextEncode")])])
             eq_refl eq_refl).
    right. right. left.
    exists [("6", JObj [("class_type", JStr "CLIPTextEncode")])],
      [("class_type", JStr "CLIPTextEncode")].
    repeat split.
  - apply (generar_rejects_other_shapes sample_shapes "workflow.json" "a cat"
             "http://localhost:8188" "./outputs" 2 300 text_inputs_null
             (world_with_file text_inputs_null)
             (JObj [("6", JObj [("inputs", JNull)])]) eq_refl eq_refl).
    right. right. right.
    exists [("6", JObj [("inputs", JNull)])], [("inputs", JNull)], JNull.
    repeat split.
Defined.
